(** * zstart/src/main/engine/file_handler.py

    A shallow embedding of the persistence layer: [DataHandler] (raw file
    access and the codec wrappers), [BaseHandler] (the save and load
    pipelines with their hooks) and [ConfigHandler] (the YAML-bound
    specialisation that merges loaded data into the [configData] singleton).

    Python state is explicit: a [world] holds the file system, the object
    store, the module-level binding of [configData] and a log of what the
    process did (prints, file operations, library calls, hook entries).
    Exceptions are results: a computation yields [Ok v] or [Raise e]
    together with the state reached. *)

From Stdlib Require Import String Ascii ZArith List.
From Stdlib.Strings Require Import Byte.
From stdpp Require Import base gmap strings list.

Local Open Scope string_scope.
Local Open Scope list_scope.
Set Warnings "-register-all".

(** ** Values *)

(** Python values that can sit in an attribute, a file payload or a decoded
    document.  Attribute names and record field names are strings, so a
    mapping is keyed by strings. *)
Inductive pyval : Type :=
  | VNone
  | VBool (b : bool)
  | VInt (z : Z)
  | VStr (s : string)
  | VBytes (b : list byte)
  | VList (l : list pyval)
  | VDict (m : gmap string pyval).

(** [if v:] *)
Definition truthy (v : pyval) : bool :=
  match v with
  | VNone => false
  | VBool b => b
  | VInt z => negb (Z.eqb z 0)
  | VStr s => negb (String.eqb s "")
  | VBytes b => match b with [] => false | _ => true end
  | VList l => match l with [] => false | _ => true end
  | VDict m => negb (bool_decide (m = ∅))
  end.

(** [v is None] *)
Definition is_None (v : pyval) : bool :=
  match v with VNone => true | _ => false end.

(** [isinstance(v, bytes)] *)
Definition isinstance_bytes (v : pyval) : bool :=
  match v with VBytes _ => true | _ => false end.

(** [type(v).__name__], as error messages quote it. *)
Definition type_name (v : pyval) : string :=
  match v with
  | VNone => "NoneType"
  | VBool _ => "bool"
  | VInt _ => "int"
  | VStr _ => "str"
  | VBytes _ => "bytes"
  | VList _ => "list"
  | VDict _ => "dict"
  end.

(** ** Exceptions *)

(** The exception classes the module can meet.  All of them derive from
    [Exception]; [IOError] is Python 3's alias of [OSError]. *)
Inductive exn_class : Type :=
  | Exception
  | OSError
  | FileNotFoundError
  | PermissionError
  | IsADirectoryError
  | NotADirectoryError
  | FileExistsError
  | ValueError
  | UnicodeDecodeError
  | TypeError
  | OverflowError
  | AttributeError
  | NotImplementedError
  | UnboundLocalError.

Definition IOError : exn_class := OSError.

#[global] Instance exn_class_eq_dec : EqDecision exn_class.
Proof. solve_decision. Defined.

Record exn : Type := mk_exn { e_class : exn_class; e_msg : string }.

(** The direct base class, [None] at the root. *)
Definition base_class (c : exn_class) : option exn_class :=
  match c with
  | Exception => None
  | OSError => Some Exception
  | FileNotFoundError | PermissionError | IsADirectoryError
  | NotADirectoryError | FileExistsError => Some OSError
  | ValueError => Some Exception
  | UnicodeDecodeError => Some ValueError
  | TypeError | OverflowError | AttributeError
  | NotImplementedError | UnboundLocalError => Some Exception
  end.

(** [issubclass(c, d)]: walk up the bases (the hierarchy is three deep). *)
Fixpoint issubclass_fuel (n : nat) (c d : exn_class) : bool :=
  if bool_decide (c = d) then true
  else match n with
       | O => false
       | S n' => match base_class c with
                 | Some b => issubclass_fuel n' b d
                 | None => false
                 end
       end.

Definition issubclass : exn_class -> exn_class -> bool := issubclass_fuel 3.

Inductive res (A : Type) : Type :=
  | Ok (a : A)
  | Raise (e : exn).
Arguments Ok {A} a.
Arguments Raise {A} e.

(** ** The world *)

Definition path : Type := list string.
Definition loc : Type := nat.

(** [str(path)] as it appears in a diagnostic. *)
Definition path_str (p : path) : string := String.concat "/" p.

(** [os.path.dirname]: the path without its last component; the empty
    path is the working directory and is falsy. *)
Definition dirname (p : path) : path := removelast p.

(** [Path(p)]: the empty string becomes the current directory. *)
Definition Path (p : path) : path :=
  match p with
  | [] => ["."]
  | _ => p
  end.

Inductive fdata : Type :=
  | FText (s : string)
  | FBytes (b : list byte).

Inductive open_mode : Type := Mode_w | Mode_wb | Mode_r | Mode_rb.

Inductive libfun : Type :=
  | Ujson_dumps | Ujson_loads | Yaml_dump | Yaml_safe_load | Tomllib_loads.

Inductive hook : Type := On_saved_file | On_loaded_file | Update_global.

Inductive event : Type :=
  | EPrint (s : string)
  | EMakedirs (d : path)
  | EOpen (p : path) (m : open_mode)
  | EWrite (p : path) (data : pyval)
  | ERead (p : path)
  | ECall (f : libfun)
  | EHook (h : hook).

(** An object: its [__dict__] and, for a dataclass instance, the names of
    its declared fields in declaration order. *)
Record pyobj : Type := mk_obj {
  dc_fields : option (list string);
  attrs : gmap string pyval
}.

#[global] Instance pyobj_inhabited : Inhabited pyobj :=
  populate (mk_obj None ∅).

(** Besides the file system and the object store the world holds the
    answers of the platform, which the program cannot see beforehand and
    never changes.  [denied] holds the paths whose [open] is refused for
    lack of permission.  [disk_full] says that the device refuses, for lack
    of space, the data written during the run, and [room] how many bytes of
    such a write reach the file before it is refused.  [decode_error]
    gives the text of the error raised for bytes that are no UTF-8. *)
Record world : Type := mk_world {
  dirs : gset path;            (* existing directories, besides the cwd *)
  files : gmap path fdata;     (* existing regular files *)
  denied : gset path;          (* paths the process may not open *)
  disk_full : bool;            (* the device refuses the data written *)
  room : nat;                  (* bytes of a refused write that went through *)
  decode_error : list byte -> string;  (* str() of a UnicodeDecodeError *)
  heap : gmap loc pyobj;       (* the object store *)
  configData : loc;            (* module-level name bound by the import *)
  trace : list event           (* what the process did, oldest first *)
}.

Definition log (e : event) (w : world) : world :=
  mk_world (dirs w) (files w) (denied w) (disk_full w) (room w)
           (decode_error w) (heap w) (configData w) (trace w ++ [e]).

Definition set_files (f : gmap path fdata) (w : world) : world :=
  mk_world (dirs w) f (denied w) (disk_full w) (room w)
           (decode_error w) (heap w) (configData w) (trace w).

Definition set_dirs (d : gset path) (w : world) : world :=
  mk_world d (files w) (denied w) (disk_full w) (room w)
           (decode_error w) (heap w) (configData w) (trace w).

Definition set_heap (h : gmap loc pyobj) (w : world) : world :=
  mk_world (dirs w) (files w) (denied w) (disk_full w) (room w)
           (decode_error w) h (configData w) (trace w).

(** [d] is a directory: the working directory, written as the empty
    path or as a dot, or a directory of [dirs]. *)
Definition dir_exists (w : world) (d : path) : bool :=
  bool_decide (d = [] ∨ d = ["."] ∨ d ∈ dirs w).

(** ** Computations: state and exceptions *)

Definition M (S A : Type) : Type := S -> res A * S.

Definition ret {S A} (a : A) : M S A := fun s => (Ok a, s).

Definition bind {S A B} (m : M S A) (k : A -> M S B) : M S B :=
  fun s => match m s with
           | (Ok a, s') => k a s'
           | (Raise e, s') => (Raise e, s')
           end.

Definition raise {S A} (c : exn_class) (msg : string) : M S A :=
  fun s => (Raise (mk_exn c msg), s).

Notation "x <~ m ;; k" := (bind m (fun x => k))
  (at level 100, m at next level, right associativity).
Notation "m ;;; k" := (bind m (fun _ => k))
  (at level 100, right associativity).

(** [except C as e: h]: the first clause whose class the exception is an
    instance of runs; with none the exception goes on. *)
Fixpoint dispatch {S A} (hs : list (exn_class * (exn -> M S A))) (e : exn)
  : M S A :=
  match hs with
  | [] => fun s => (Raise e, s)
  | (c, h) :: hs' => if issubclass (e_class e) c then h e else dispatch hs' e
  end.

(** [try: m  except ...]: state changes made before the raise stay. *)
Definition try_except {S A} (m : M S A)
    (hs : list (exn_class * (exn -> M S A))) : M S A :=
  fun s => match m s with
           | (Ok a, s') => (Ok a, s')
           | (Raise e, s') => dispatch hs e s'
           end.

Definition print (s : string) : M world unit :=
  fun w => (Ok tt, log (EPrint s) w).

Definition emit (e : event) : M world unit :=
  fun w => (Ok tt, log e w).

(** ** Builtins: [open], [write], [read], [os.makedirs] *)

Definition is_write_mode (m : open_mode) : bool :=
  match m with Mode_w | Mode_wb => true | _ => false end.

Definition is_binary_mode (m : open_mode) : bool :=
  match m with Mode_wb | Mode_rb => true | _ => false end.

(** Every non-empty prefix of a path, shortest first. *)
Fixpoint prefixes (p : path) : list path :=
  match p with
  | [] => []
  | c :: p' => [c] :: map (cons c) (prefixes p')
  end.

(** Some proper ancestor of [p] is a regular file. *)
Definition under_file (w : world) (p : path) : bool :=
  existsb (fun q => bool_decide (is_Some (files w !! q)))
          (prefixes (dirname p)).

(** The error of [open(p, mode)], if it fails.  The empty string names
    nothing; a path below a regular file is refused before anything else.
    Writing to a directory is refused before permissions are looked at, and
    needs the parent directory; reading looks at permissions first and
    needs the file. *)
Definition cannot_open (w : world) (p : path) (m : open_mode) : option exn :=
  match p with
  | [] =>
    Some (mk_exn FileNotFoundError "[Errno 2] No such file or directory: ''")
  | _ =>
    if under_file w p then
      Some (mk_exn NotADirectoryError
              ("[Errno 20] Not a directory: '" +:+ path_str p +:+ "'"))
    else if is_write_mode m then
      if dir_exists w p then
        Some (mk_exn IsADirectoryError
                ("[Errno 21] Is a directory: '" +:+ path_str p +:+ "'"))
      else if negb (dir_exists w (dirname p)) then
        Some (mk_exn FileNotFoundError
                ("[Errno 2] No such file or directory: '" +:+ path_str p
                 +:+ "'"))
      else if bool_decide (p ∈ denied w) then
        Some (mk_exn PermissionError
                ("[Errno 13] Permission denied: '" +:+ path_str p +:+ "'"))
      else None
    else if bool_decide (p ∈ denied w) then
      Some (mk_exn PermissionError
              ("[Errno 13] Permission denied: '" +:+ path_str p +:+ "'"))
    else if dir_exists w p then
      Some (mk_exn IsADirectoryError
              ("[Errno 21] Is a directory: '" +:+ path_str p +:+ "'"))
    else
      match files w !! p with
      | Some _ => None
      | None =>
        Some (mk_exn FileNotFoundError
                ("[Errno 2] No such file or directory: '" +:+ path_str p
                 +:+ "'"))
      end
  end.

(** [open(p, mode)].  A write mode creates or truncates the file. *)
Definition py_open (p : path) (m : open_mode) : M world unit :=
  fun w0 =>
    let w := log (EOpen p m) w0 in
    match cannot_open w p m with
    | Some e => (Raise e, w)
    | None =>
      if is_write_mode m then
        (Ok tt, set_files (<[p := if is_binary_mode m then FBytes []
                                  else FText ""]> (files w)) w)
      else (Ok tt, w)
    end.

(** What [f.write(data)] puts into the file, with its bytes: text mode
    takes a [str], binary mode takes bytes.  Line ends are written as they
    are, as on POSIX. *)
Definition written (m : open_mode) (data : pyval)
  : option (fdata * list byte) :=
  if is_binary_mode m
  then match data with VBytes b => Some (FBytes b, b) | _ => None end
  else match data with
       | VStr s => Some (FText s, list_byte_of_string s)
       | _ => None
       end.

(** [f.write(data)] on a file opened at [p], up to the close of the file.
    When the device refuses the data, the bytes that went through before
    stay in the file. *)
Definition file_write (p : path) (m : open_mode) (data : pyval)
  : M world unit :=
  fun w =>
    match written m data with
    | None =>
      (Raise (mk_exn TypeError
                (if is_binary_mode m
                 then "a bytes-like object is required, not '"
                      +:+ type_name data +:+ "'"
                 else "write() argument must be str, not "
                      +:+ type_name data)), w)
    | Some (d, bs) =>
      if disk_full w then
        (Raise (mk_exn OSError "[Errno 28] No space left on device"),
         set_files (<[p := FBytes (take (room w) bs)]> (files w)) w)
      else (Ok tt, log (EWrite p data) (set_files (<[p := d]> (files w)) w))
    end.

(** A text read turns each of the line ends CR LF and CR into LF. *)
Fixpoint universal_newlines (s : string) : string :=
  match s with
  | EmptyString => EmptyString
  | String c s' =>
    if Ascii.eqb c "013" then
      match s' with
      | String c' s'' =>
        if Ascii.eqb c' "010" then String "010" (universal_newlines s'')
        else String "010" (universal_newlines s')
      | EmptyString => String "010" EmptyString
      end
    else String c (universal_newlines s')
  end.

Definition in_range (lo hi : nat) (b : byte) : bool :=
  (lo <=? Byte.to_nat b)%nat && (Byte.to_nat b <=? hi)%nat.

(** Well-formed UTF-8: no overlong form, no surrogate, nothing above
    U+10FFFF.  A [str] is held as the bytes of its UTF-8 form. *)
Fixpoint utf8_valid (l : list byte) : bool :=
  match l with
  | [] => true
  | b0 :: l1 =>
    if in_range 0 127 b0 then utf8_valid l1
    else
      match l1 with
      | [] => false
      | b1 :: l2 =>
        if in_range 194 223 b0 then in_range 128 191 b1 && utf8_valid l2
        else
          match l2 with
          | [] => false
          | b2 :: l3 =>
            if in_range 224 239 b0 then
              (if in_range 224 224 b0 then in_range 160 191 b1
               else if in_range 237 237 b0 then in_range 128 159 b1
               else in_range 128 191 b1)
              && in_range 128 191 b2 && utf8_valid l3
            else
              match l3 with
              | [] => false
              | b3 :: l4 =>
                in_range 240 244 b0
                && (if in_range 240 240 b0 then in_range 144 191 b1
                    else if in_range 244 244 b0 then in_range 128 143 b1
                    else in_range 128 191 b1)
                && in_range 128 191 b2 && in_range 128 191 b3
                && utf8_valid l4
              end
          end
      end
  end.

(** [f.read()] on a file opened at [p]: the bytes as they are in binary
    mode, the decoded text with its line ends translated in text mode. *)
Definition file_read (p : path) (m : open_mode) : M world pyval :=
  fun w0 =>
    let w := log (ERead p) w0 in
    match files w !! p with
    | None => (Raise (mk_exn OSError "[Errno 9] Bad file descriptor"), w)
    | Some (FText s) =>
      (Ok (if is_binary_mode m then VBytes (list_byte_of_string s)
           else VStr (universal_newlines s)), w)
    | Some (FBytes b) =>
      if is_binary_mode m then (Ok (VBytes b), w)
      else if utf8_valid b
      then (Ok (VStr (universal_newlines (string_of_list_byte b))), w)
      else (Raise (mk_exn UnicodeDecodeError (decode_error w b)), w)
    end.

(** [os.makedirs(d, exist_ok=True)]: every missing ancestor is created; a
    regular file in the way is an error. *)
Definition makedirs (d : path) : M world unit :=
  fun w0 =>
    let w := log (EMakedirs d) w0 in
    if under_file w d then
      (Raise (mk_exn NotADirectoryError
                ("[Errno 20] Not a directory: '" +:+ path_str d +:+ "'")), w)
    else if bool_decide (is_Some (files w !! d)) then
      (Raise (mk_exn FileExistsError
                ("[Errno 17] File exists: '" +:+ path_str d +:+ "'")), w)
    else (Ok tt, set_dirs (list_to_set (prefixes d) ∪ dirs w) w).

(** ** The codec libraries

    [ujson], [yaml] and [tomllib] are third-party: what they return or raise
    on a given argument is a parameter of the development.  [ujson_dumps]
    and [yaml_dump] stand for the calls with [indent=4]. *)
Record codecs : Type := mk_codecs {
  ujson_dumps : pyval -> res string;
  ujson_loads : pyval -> res pyval;
  yaml_dump : pyval -> res string;
  yaml_safe_load : pyval -> res pyval;
  tomllib_loads : pyval -> res pyval
}.

Definition call_lib {A} (f : libfun) (r : res A) : M world A :=
  fun w => (r, log (ECall f) w).

(** ** DataHandler *)

Module DataHandler.

Definition write_file (file_path : path) (data : pyval) : M world pyval :=
  try_except
    (let is_bytes := isinstance_bytes data in
     let mode := if is_bytes then Mode_wb else Mode_w in
     py_open file_path mode ;;;
     file_write file_path mode data ;;;
     ret (VBool true))
    [ (IOError, fun _ =>
         print ("Failed to write file " +:+ path_str file_path
                +:+ ", Check that the file is writable.") ;;;
         ret VNone);
      (Exception, fun e =>
         print ("An unexpected error ocurred while writing to file. Error: "
                +:+ e_msg e) ;;;
         ret VNone) ].

Definition read_file (file_path : path) (is_bytes : bool) : M world pyval :=
  try_except
    (let mode := if is_bytes then Mode_rb else Mode_r in
     py_open file_path mode ;;;
     file_read file_path mode)
    [ (FileNotFoundError, fun _ =>
         print ("Failed to read file " +:+ path_str file_path
                +:+ ", Check that the file exists.") ;;;
         ret VNone);
      (PermissionError, fun _ =>
         print ("Failed to read file " +:+ path_str file_path
                +:+ ", Check permissions.") ;;;
         ret VNone);
      (IOError, fun _ =>
         print ("Failed to read file " +:+ path_str file_path
                +:+ ", Check that the file is readable.") ;;;
         ret VNone);
      (Exception, fun e =>
         print ("An unexpected error ocurred while reading file. Error: "
                +:+ e_msg e) ;;;
         ret VNone) ].


Section Codecs.

Variable lib : codecs.

Definition _serialize_json (data : pyval) : M world pyval :=
  try_except
    (s <~ call_lib Ujson_dumps (ujson_dumps lib data) ;; ret (VStr s))
    [ (TypeError, fun e =>
         print ("Failed to serialize data to JSON. Ensure that all data types are serializable. Error: "
                +:+ e_msg e) ;;;
         ret VNone);
      (OverflowError, fun e =>
         print ("Failed to serialize data to JSON. Data is too large to be serialized. Error: "
                +:+ e_msg e) ;;;
         ret VNone);
      (Exception, fun e =>
         print ("An unexpected error occurred while serializing data to JSON. Error: "
                +:+ e_msg e) ;;;
         ret VNone) ].

Definition _deserialize_json (data : pyval) : M world pyval :=
  try_except
    (call_lib Ujson_loads (ujson_loads lib data))
    [ (ValueError, fun e =>
         print ("Failed to deserialize data from JSON. Ensure that the data is a valid JSON string. Error: "
                +:+ e_msg e) ;;;
         ret VNone);
      (Exception, fun e =>
         print ("An unexpected error occurred while deserializing data from JSON. Error: "
                +:+ e_msg e) ;;;
         ret VNone) ].

Definition _serialize_yaml (data : pyval) : M world pyval :=
  try_except
    (s <~ call_lib Yaml_dump (yaml_dump lib data) ;; ret (VStr s))
    [ (TypeError, fun e =>
         print ("Failed to serialize data to YAML. Ensure that all data types are serializable. Error: "
                +:+ e_msg e) ;;;
         ret VNone);
      (OverflowError, fun e =>
         print ("Failed to serialize data to YAML. Data is too large to be serialized. Error: "
                +:+ e_msg e) ;;;
         ret VNone);
      (Exception, fun e =>
         print ("An unexpected error occurred while serializing data to YAML. Error: "
                +:+ e_msg e) ;;;
         ret VNone) ].

Definition _deserialize_yaml (data : pyval) : M world pyval :=
  try_except
    (call_lib Yaml_safe_load (yaml_safe_load lib data))
    [ (ValueError, fun e =>
         print ("Failed to deserialize data from YAML. Ensure that the data is a valid YAML. Error: "
                +:+ e_msg e) ;;;
         ret VNone);
      (Exception, fun e =>
         print ("An unexpected error occurred while deserializing data from YAML. Error: "
                +:+ e_msg e) ;;;
         ret VNone) ].

(** [_serialize_toml] is commented out in the source: there is none. *)

Definition _deserialize_toml (data : pyval) : M world pyval :=
  try_except
    (call_lib Tomllib_loads (tomllib_loads lib data))
    [ (ValueError, fun e =>
         print ("Failed to deserialize data from TOML. Ensure that the data is a valid TOML. Error: "
                +:+ e_msg e) ;;;
         ret VNone);
      (Exception, fun e =>
         print ("An unexpected error occurred while deserializing data from TOML. Error: "
                +:+ e_msg e) ;;;
         ret VNone) ].

End Codecs.

End DataHandler.

(** ** BaseHandler and ConfigHandler *)

Inductive cls : Type := BaseHandler | ConfigHandler.

(** [self.class_data] is either the very [__dict__] of an object of the
    store (an alias, not a copy) or a value of its own. *)
Inductive cdata : Type :=
  | CDAlias (l : loc)
  | CDVal (v : pyval).

Record handler : Type := mk_handler {
  klass : cls;
  class_obj : loc;
  serialize_json : bool;
  serialize_yaml : bool;
  serialize_toml : bool;
  class_data : cdata;
  file_path : path
}.

Definition set_class_data (cd : cdata) (h : handler) : handler :=
  mk_handler (klass h) (class_obj h) (serialize_json h) (serialize_yaml h)
             (serialize_toml h) cd (file_path h).

(** What [self.class_data] evaluates to in a given store. *)
Definition cdata_val (w : world) (cd : cdata) : pyval :=
  match cd with
  | CDAlias l => VDict (attrs (heap w !!! l))
  | CDVal v => v
  end.

(** A method runs on its instance and the world. *)
Record mstate : Type := mk_mstate { self : handler; env : world }.

Definition liftW {A} (m : M world A) : M mstate A :=
  fun s => let (r, w') := m (env s) in (r, mk_mstate (self s) w').

Definition get_self : M mstate handler := fun s => (Ok (self s), s).

Definition get_class_data : M mstate pyval :=
  fun s => (Ok (cdata_val (env s) (class_data (self s))), s).

Definition assign_class_data (v : pyval) : M mstate unit :=
  fun s => (Ok tt, mk_mstate (set_class_data (CDVal v) (self s)) (env s)).

(** [dataclasses.asdict]: the declared fields, each read off the instance. *)
Fixpoint asdict (a : gmap string pyval) (fs : list string)
  : option (gmap string pyval) :=
  match fs with
  | [] => Some ∅
  | f :: fs' =>
    match a !! f, asdict a fs' with
    | Some v, Some m => Some (<[f := v]> m)
    | _, _ => None
    end
  end.

Definition BaseHandler_init (k : cls) (class_obj : loc) (file_path : path)
    (serialize_json serialize_yaml serialize_toml : bool) : M world handler :=
  cd <~ (fun w =>
           let o := heap w !!! class_obj in
           match dc_fields o with
           | Some fs =>
             match asdict (attrs o) fs with
             | Some m => (Ok (CDVal (VDict m)), w)
             | None =>
               (Raise (mk_exn AttributeError "object has no attribute"), w)
             end
           | None => (Ok (CDAlias class_obj), w)
           end) ;;
  (* Ensure directory exists *)
  (let file_dir := dirname file_path in
   match file_dir with
   | [] => ret tt
   | _ => makedirs file_dir
   end) ;;;
  ret (mk_handler k class_obj serialize_json serialize_yaml serialize_toml
                  cd (Path file_path)).

(** The body of [ConfigHandler.__init__(self, file_path, config_obj,
    **kwargs)].  [file_path] and [config_obj] are parameters of the method:
    however the caller wrote them they are bound here, [config_obj] to the
    singleton when left out, and [kwargs] is the dictionary of the
    keywords that remain.  It goes to [BaseHandler.__init__] next to
    [serialize_yaml=True]: a keyword that the call then gives twice, or
    that [BaseHandler.__init__] does not have, is a [TypeError]. *)
Definition ConfigHandler_init (file_path : path) (config_obj : option loc)
    (kwargs : gmap string bool) : M world handler :=
  fun w =>
    let obj := default (configData w) config_obj in
    if bool_decide (is_Some (kwargs !! "serialize_yaml")) then
      (Raise (mk_exn TypeError
         "got multiple values for keyword argument 'serialize_yaml'"), w)
    else if bool_decide (is_Some (kwargs !! "class_obj")
                         ∨ is_Some (kwargs !! "file_path")) then
      (Raise (mk_exn TypeError "got multiple values for argument"), w)
    else if bool_decide (dom kwargs ⊆ {["serialize_json"; "serialize_toml"]})
    then
      BaseHandler_init ConfigHandler obj file_path
        (default false (kwargs !! "serialize_json"))
        true
        (default false (kwargs !! "serialize_toml")) w
    else
      (Raise (mk_exn TypeError "got an unexpected keyword argument"), w).

Definition BaseHandler_on_saved_file : M mstate unit :=
  raise NotImplementedError "Subclasses must implement on_saved_file()".

Definition BaseHandler_on_loaded_file : M mstate unit :=
  raise NotImplementedError "Subclasses must implement on_loaded_file()".

Definition BaseHandler_update_global : M mstate unit :=
  raise NotImplementedError "Subclasses must implement update_global()".

(** [configData.__dict__.update] with the keywords unpacked from
    [self.class_data]: every key of the mapping is stored into the
    singleton's [__dict__]. *)
Definition ConfigHandler_update_global : M mstate unit :=
  cd <~ get_class_data ;;
  match cd with
  | VDict m =>
    fun s =>
      let w := env s in
      let g := configData w in
      let o := heap w !!! g in
      (Ok tt, mk_mstate (self s)
                (set_heap (<[g := mk_obj (dc_fields o) (m ∪ attrs o)]> (heap w))
                          w))
  | _ =>
    raise TypeError
      ("dict.update() argument after ** must be a mapping, not "
       +:+ type_name cd)
  end.

(** [self.update_global()], by the class of [self]. *)
Definition update_global : M mstate unit :=
  liftW (emit (EHook Update_global)) ;;;
  s <~ get_self ;;
  match klass s with
  | BaseHandler => BaseHandler_update_global
  | ConfigHandler => ConfigHandler_update_global
  end.

Definition ConfigHandler_on_saved_file : M mstate unit := ret tt.

Definition ConfigHandler_on_loaded_file : M mstate unit := update_global.

(** [self.on_saved_file()] and [self.on_loaded_file()], by the class. *)
Definition on_saved_file : M mstate unit :=
  liftW (emit (EHook On_saved_file)) ;;;
  s <~ get_self ;;
  match klass s with
  | BaseHandler => BaseHandler_on_saved_file
  | ConfigHandler => ConfigHandler_on_saved_file
  end.

Definition on_loaded_file : M mstate unit :=
  liftW (emit (EHook On_loaded_file)) ;;;
  s <~ get_self ;;
  match klass s with
  | BaseHandler => BaseHandler_on_loaded_file
  | ConfigHandler => ConfigHandler_on_loaded_file
  end.

(** Reading the local [data]: unbound when no branch assigned it. *)
Definition read_local {S} (name : string) (v : option pyval) : M S pyval :=
  match v with
  | Some x => ret x
  | None =>
    raise UnboundLocalError
      ("cannot access local variable '" +:+ name
       +:+ "' where it is not associated with a value")
  end.

Section Pipelines.

Variable lib : codecs.

(** The tail of [save_file] after the format branches; [data] is the local
    variable, bound or not. *)
Definition save_tail (data : option pyval) : M mstate unit :=
  s <~ get_self ;;
  d <~ read_local "data" data ;;
  Result <~ liftW (DataHandler.write_file (file_path s) d) ;;
  if truthy Result then on_saved_file else ret tt.

(** The [try] block of [save_file]. *)
Definition save_body : M mstate unit :=
  s <~ get_self ;;
  if serialize_json s then
    cd <~ get_class_data ;;
    data <~ liftW (DataHandler._serialize_json lib cd) ;;
    if is_None data then ret tt else save_tail (Some data)
  else if serialize_yaml s then
    cd <~ get_class_data ;;
    data <~ liftW (DataHandler._serialize_yaml lib cd) ;;
    if is_None data then ret tt else save_tail (Some data)
  else save_tail None.

Definition save_file : M mstate unit :=
  try_except save_body
    [ (Exception, fun e =>
         liftW (print ("Unexpected error saving data: " +:+ e_msg e))) ].

(** The tail of [load_file]: the assignment and the hook. *)
Definition load_tail (data : pyval) : M mstate unit :=
  assign_class_data data ;;;
  on_loaded_file.

(** The [try] block of [load_file]. *)
Definition load_body : M mstate unit :=
  s <~ get_self ;;
  data <~ liftW (DataHandler.read_file (file_path s) false) ;;
  if is_None data then ret tt
  else if serialize_json s then
    data <~ liftW (DataHandler._deserialize_json lib data) ;;
    if is_None data then ret tt else load_tail data
  else if serialize_yaml s then
    data <~ liftW (DataHandler._deserialize_yaml lib data) ;;
    if is_None data then ret tt else load_tail data
  else if serialize_toml s then
    data <~ liftW (DataHandler._deserialize_toml lib data) ;;
    if is_None data then ret tt else load_tail data
  else load_tail data.

Definition load_file : M mstate unit :=
  try_except load_body
    [ (Exception, fun e =>
         liftW (print ("Unexpected error loading data: " +:+ e_msg e))) ].

End Pipelines.

(** ** Observations used in the statements *)

(** The events logged between two states of one run. *)
Definition new_events (w w' : world) : list event :=
  drop (length (trace w)) (trace w').

(** The library functions called, in order. *)
Definition lib_calls (evs : list event) : list libfun :=
  omap (fun e => match e with ECall f => Some f | _ => None end) evs.

(** What a payload becomes on disk; [None] for a value [f.write] refuses. *)
Definition payload (data : pyval) : option fdata :=
  match data with
  | VStr s => Some (FText s)
  | VBytes b => Some (FBytes b)
  | _ => None
  end.

(** [open(p, 'w')] would succeed: [p] is not below a regular file, is not
    a directory, may be opened, and its parent directory exists. *)
Definition writable (w : world) (p : path) : bool :=
  negb (under_file w p) && negb (dir_exists w p)
  && negb (bool_decide (p ∈ denied w)) && dir_exists w (dirname p).

(** The text a text-mode read of [p] yields, if it succeeds. *)
Definition read_text (w : world) (p : path) : option string :=
  if under_file w p || dir_exists w p || bool_decide (p ∈ denied w)
  then None
  else match files w !! p with
       | Some (FText s) => Some (universal_newlines s)
       | Some (FBytes b) =>
         if utf8_valid b
         then Some (universal_newlines (string_of_list_byte b)) else None
       | None => None
       end.

Definition write_failed_msg (p : path) : string :=
  "Failed to write file " +:+ path_str p
  +:+ ", Check that the file is writable.".

Definition unbound_data_msg : string :=
  "Unexpected error saving data: cannot access local variable 'data' where it is not associated with a value".

(** The text the enabled encoder gives for the current [class_data], when
    one is enabled and it succeeds. *)
Definition encoded (lib : codecs) (h : handler) (w : world) : option string :=
  let cd := cdata_val w (class_data h) in
  if serialize_json h then
    match ujson_dumps lib cd with Ok t => Some t | Raise _ => None end
  else if serialize_yaml h then
    match yaml_dump lib cd with Ok t => Some t | Raise _ => None end
  else None.

(** What an escaped exception leaves behind once the catch-all of a
    pipeline has printed it. *)
Definition absorbed (prefix : string) (r : res unit) (st : mstate) : mstate :=
  match r with
  | Ok _ => st
  | Raise e => mk_mstate (self st) (log (EPrint (prefix +:+ e_msg e)) (env st))
  end.

(** The library call that encodes, and the ones that decode, by the format
    flags in the order the pipelines test them. *)
Definition encoder (h : handler) : libfun :=
  if serialize_json h then Ujson_dumps else Yaml_dump.

Definition decoder_calls (h : handler) : list libfun :=
  if serialize_json h then [Ujson_loads]
  else if serialize_yaml h then [Yaml_safe_load]
  else if serialize_toml h then [Tomllib_loads]
  else [].

Definition saved_hook_error : exn :=
  mk_exn NotImplementedError "Subclasses must implement on_saved_file()".

Definition loaded_hook_error : exn :=
  mk_exn NotImplementedError "Subclasses must implement on_loaded_file()".

(** What follows the entry of [on_saved_file] in the log of a save. *)
Definition saved_hook_tail (k : cls) : list event :=
  match k with
  | BaseHandler =>
    [EPrint "Unexpected error saving data: Subclasses must implement on_saved_file()"]
  | ConfigHandler => []
  end.

(** The four ways a [save_file] ends, from the world before to the world
    after. *)
Inductive save_outcome (lib : codecs) (h : handler) (w w' : world) : Prop :=
  | save_no_encoder :
      serialize_json h = false -> serialize_yaml h = false ->
      files w' = files w ->
      new_events w w' = [EPrint unbound_data_msg] ->
      save_outcome lib h w w'
  | save_not_encoded msg :
      encoded lib h w = None ->
      files w' = files w ->
      new_events w w' = [ECall (encoder h); EPrint msg] ->
      save_outcome lib h w w'
  | save_not_written t msg :
      encoded lib h w = Some t ->
      writable w (file_path h) = false \/ disk_full w = true ->
      (dir_exists w (dirname (file_path h)) = false -> files w' = files w) ->
      new_events w w' =
        [ECall (encoder h); EOpen (file_path h) Mode_w; EPrint msg] ->
      save_outcome lib h w w'
  | save_written t :
      encoded lib h w = Some t ->
      writable w (file_path h) = true -> disk_full w = false ->
      files w' = <[file_path h := FText t]> (files w) ->
      new_events w w' =
        [ECall (encoder h); EOpen (file_path h) Mode_w;
         EWrite (file_path h) (VStr t); EHook On_saved_file]
        ++ saved_hook_tail (klass h) ->
      save_outcome lib h w w'.

(** ** Sample libraries, worlds and handlers *)

(** Stand-ins for the libraries: the encoders give a text that names the
    format, the JSON and YAML decoders a two-field record, the TOML decoder
    rejects its input. *)
Definition stub_codecs : codecs :=
  mk_codecs
    (fun _ => Ok "json-text")
    (fun _ => Ok (VDict {[ "b" := VInt 3; "c" := VInt 4 ]}))
    (fun _ => Ok "yaml-text")
    (fun _ => Ok (VDict {[ "b" := VInt 3; "c" := VInt 4 ]}))
    (fun _ => Raise (mk_exn ValueError "Invalid statement")).

(** What the platform says of bytes that are no UTF-8 (here for a first
    byte 0xff). *)
Definition utf8_error_text (b : list byte) : string :=
  "'utf-8' codec can't decode byte 0xff in position 0: invalid start byte".

(** The singleton, a plain object with fields a and b. *)
Definition settings : pyobj :=
  mk_obj None {[ "a" := VInt 1; "b" := VInt 2 ]}.

(** A second configuration object, a dataclass instance. *)
Definition draft : pyobj :=
  mk_obj (Some ["b"; "c"]) {[ "b" := VInt 3; "c" := VInt 4 ]}.

(** No file and no directory besides the cwd; [configData] is object 0. *)
Definition w_clean : world :=
  mk_world ∅ ∅ ∅ false 0%nat utf8_error_text
           {[ 0%nat := settings; 1%nat := draft ]} 0%nat [].

(** The same with a text file [cfg.yml] in the cwd. *)
Definition w_cfg : world :=
  mk_world ∅ {[ ["cfg.yml"] := FText "b: 3" ]} ∅ false 0%nat utf8_error_text
           {[ 0%nat := settings; 1%nat := draft ]} 0%nat [].

Definition base_json : handler :=
  mk_handler BaseHandler 0%nat true false false (CDAlias 0%nat)
             ["state.json"].

Definition base_toml : handler :=
  mk_handler BaseHandler 0%nat false false true (CDAlias 0%nat)
             ["state.toml"].

Definition base_raw : handler :=
  mk_handler BaseHandler 0%nat false false false (CDAlias 0%nat) ["cfg.yml"].

(** A [ConfigHandler] on [draft], holding a freshly loaded record. *)
Definition config_yaml : handler :=
  mk_handler ConfigHandler 1%nat false true false
             (CDVal (VDict {[ "b" := VInt 3; "c" := VInt 4 ]})) ["cfg.yml"].

(** [ConfigHandler("cfg.yml", serialize_json=True)] in [w_clean]. *)
Definition config_json : handler :=
  mk_handler ConfigHandler 0%nat true true false (CDAlias 0%nat) ["cfg.yml"].

(** [ConfigHandler("out/cfg.yml")] in [w_clean], and the world it leaves. *)
Definition config_out : handler :=
  mk_handler ConfigHandler 0%nat false true false (CDAlias 0%nat)
             ["out"; "cfg.yml"].

Definition w_out : world :=
  mk_world {[ ["out"] ]} ∅ ∅ false 0%nat utf8_error_text
           {[ 0%nat := settings; 1%nat := draft ]} 0%nat [EMakedirs ["out"]].

(** ** Further observations *)

(** The bytes a binary-mode read of [p] yields, if it succeeds. *)
Definition read_bytes (w : world) (p : path) : option (list byte) :=
  if under_file w p || dir_exists w p || bool_decide (p ∈ denied w)
  then None
  else match files w !! p with
       | Some (FText s) => Some (list_byte_of_string s)
       | Some (FBytes b) => Some b
       | None => None
       end.

(** What [read_file] returns when the read succeeds. *)
Definition read_value (w : world) (p : path) (is_bytes : bool)
  : option pyval :=
  if is_bytes then VBytes <$> read_bytes w p else VStr <$> read_text w p.

Definition read_mode (is_bytes : bool) : open_mode :=
  if is_bytes then Mode_rb else Mode_r.

(** The library call that decodes, by the format flags in the order
    [load_file] tests them, and what it gives on the text [s]; [None] when
    no format is enabled. *)
Definition decoder (h : handler) : libfun :=
  if serialize_json h then Ujson_loads
  else if serialize_yaml h then Yaml_safe_load
  else Tomllib_loads.

Definition decoding (lib : codecs) (h : handler) (s : string)
  : option (res pyval) :=
  if serialize_json h then Some (ujson_loads lib (VStr s))
  else if serialize_yaml h then Some (yaml_safe_load lib (VStr s))
  else if serialize_toml h then Some (tomllib_loads lib (VStr s))
  else None.

(** The world once [load_file] has read the file and called the decoder. *)
Definition decoded_world (h : handler) (w : world) : world :=
  log (ECall (decoder h))
    (log (ERead (file_path h)) (log (EOpen (file_path h) Mode_r) w)).


(** ** Further sample worlds and libraries *)



(** An empty working directory on a device that has room for 4096 more
    bytes and refuses what goes beyond them. *)
Definition w_full : world :=
  mk_world ∅ ∅ ∅ true 4096%nat utf8_error_text
           {[ 0%nat := settings; 1%nat := draft ]} 0%nat [].

(** A text of 8192 bytes, and libraries whose encoders give it. *)
Definition long_text : string := string_of_list_byte (repeat x61 (2 * 4096)).

Definition long_codecs : codecs :=
  mk_codecs (fun _ => Ok long_text) (fun _ => Ok VNone)
            (fun _ => Ok long_text) (fun _ => Ok VNone)
            (fun _ => Ok VNone).

(** Libraries whose decoders give [None], as for the JSON document null
    or an empty YAML document, and libraries whose decoders give a list. *)
Definition null_codecs : codecs :=
  mk_codecs (fun _ => Ok "null") (fun _ => Ok VNone)
            (fun _ => Ok "null") (fun _ => Ok VNone)
            (fun _ => Ok VNone).

Definition list_codecs : codecs :=
  mk_codecs (fun _ => Ok "[1]") (fun _ => Ok (VList [VInt 1]))
            (fun _ => Ok "- 1") (fun _ => Ok (VList [VInt 1]))
            (fun _ => Raise (mk_exn ValueError "Invalid statement")).

(** * Properties *)

(** ** Exceptions and handlers *)

Lemma issubclass_Exception (c : exn_class) : issubclass c Exception = true.
Proof. destruct c; reflexivity. Qed.

(** A lone [except Exception] clause takes every raise. *)
Lemma catch_all {S A} (m : M S A) (h : exn -> M S A) (s : S) :
  try_except m [(Exception, h)] s =
    match m s with
    | (Ok a, s') => (Ok a, s')
    | (Raise e, s') => h e s'
    end.
Proof.
  unfold try_except. destruct (m s) as [[a|e] s']; [reflexivity|].
  simpl. now rewrite issubclass_Exception.
Qed.

(** ** Traces *)

Lemma new_events_app (w w' : world) (evs : list event) :
  trace w' = trace w ++ evs -> new_events w w' = evs.
Proof. unfold new_events. intros ->. apply drop_app_length. Qed.

Lemma new_events_log1 (w : world) (e : event) : new_events w (log e w) = [e].
Proof. now apply new_events_app. Qed.

Ltac run :=
  unfold save_body, load_body, save_tail, load_tail, on_saved_file,
    on_loaded_file, update_global, ConfigHandler_on_saved_file,
    ConfigHandler_on_loaded_file, BaseHandler_on_saved_file,
    BaseHandler_on_loaded_file, BaseHandler_update_global,
    ConfigHandler_update_global, update_global,
    bind, get_self, get_class_data, assign_class_data, liftW, emit,
    read_local, ret, raise; simpl.

Ltac trace_norm :=
  unfold new_events; simpl; rewrite <- ?app_assoc; simpl;
  rewrite ?drop_app_length.

(** Both sides of an equivalence between a result and a logged hook entry
    are decided by the constructors. *)
Ltac hook_iff :=
  trace_norm; simpl;
  split;
  [ first [ discriminate | intros _; tauto ]
  | first [ reflexivity
          | let H := fresh in
            intros H; repeat (destruct H as [H|H]; [discriminate|]);
            destruct H ] ].

(** ** The built-in file operations *)

Lemma dir_exists_cwd (w : world) : dir_exists w [] = true.
Proof. apply bool_decide_eq_true_2. now left. Qed.

Lemma under_file_top (w : world) (c : string) : under_file w [c] = false.
Proof. reflexivity. Qed.

(** A write mode opens exactly the writable paths, and every refusal is
    an [OSError]. *)
Lemma cannot_open_write (w : world) (p : path) (m : open_mode) :
  is_write_mode m = true ->
  (cannot_open w p m = None /\ writable w p = true)
  \/ (exists e, cannot_open w p m = Some e /\ writable w p = false /\
        issubclass (e_class e) OSError = true /\
        (dir_exists w (dirname p) = false ->
         issubclass (e_class e) OSError = true)).
Proof.
  intros Hm. unfold writable. destruct p as [|c q].
  - right. eexists. rewrite dir_exists_cwd. simpl.
    rewrite ?andb_false_r. simpl. repeat split; reflexivity.
  - unfold cannot_open. cbv beta iota. rewrite Hm.
    set (P := c :: q).
    destruct (under_file w P); cbn [negb andb];
      [right; eexists; repeat split; reflexivity|].
    destruct (dir_exists w P); cbn [negb andb];
      [right; eexists; repeat split; reflexivity|].
    destruct (dir_exists w (dirname P)); cbn [negb andb];
      [|right; eexists; rewrite ?andb_false_r; repeat split; reflexivity].
    destruct (bool_decide (_ ∈ denied w)); cbn [negb andb];
      [right; eexists; repeat split; reflexivity|].
    left. split; reflexivity.
Qed.

(** The ways [open] refuses a read, by the class of the error. *)
Lemma cannot_open_read (w : world) (p : path) (m : open_mode) :
  is_write_mode m = false ->
  match cannot_open w p m with
  | None =>
    under_file w p = false /\ dir_exists w p = false /\
    bool_decide (p ∈ denied w) = false /\ is_Some (files w !! p)
  | Some e =>
    (under_file w p || dir_exists w p || bool_decide (p ∈ denied w) = true
     \/ files w !! p = None) /\
    (e_class e = FileNotFoundError \/ e_class e = PermissionError \/
     e_class e = IsADirectoryError \/ e_class e = NotADirectoryError)
  end.
Proof.
  intros Hm. destruct p as [|c q].
  - cbn [cannot_open e_class]. rewrite dir_exists_cwd.
    split; [left; reflexivity | tauto].
  - unfold cannot_open. cbv beta iota. rewrite Hm.
    set (P := c :: q).
    destruct (under_file w P); cbn [orb e_class]; [tauto|].
    destruct (bool_decide (_ ∈ denied w)); cbn [orb e_class];
      [rewrite orb_true_r; tauto|].
    destruct (dir_exists w P); cbn [orb e_class]; [tauto|].
    destruct (files w !! _) eqn:Hf; cbn [orb e_class];
      [|split; [right; first [reflexivity | exact Hf] | tauto]].
    repeat split; eauto.
Qed.

(** ** DataHandler: raw file access *)

(** [write_file] either writes all of [data] and returns [True], or prints
    one line and returns [None]; it raises in neither case. *)
Lemma write_file_cases (p : path) (d : pyval) (w : world) :
  exists w',
    (exists c, payload d = Some c /\ writable w p = true /\
        disk_full w = false /\
        DataHandler.write_file p d w = (Ok (VBool true), w') /\
        trace w' = trace w ++
          [EOpen p (if isinstance_bytes d then Mode_wb else Mode_w);
           EWrite p d] /\
        files w' = <[p := c]> (files w) /\ dirs w' = dirs w /\
        heap w' = heap w)
    \/ (exists msg,
        (payload d = None \/ writable w p = false \/ disk_full w = true) /\
        DataHandler.write_file p d w = (Ok VNone, w') /\
        trace w' = trace w ++
          [EOpen p (if isinstance_bytes d then Mode_wb else Mode_w);
           EPrint msg] /\
        (dir_exists w (dirname p) = false -> files w' = files w) /\
        dirs w' = dirs w /\ heap w' = heap w).
Proof.
  assert (Hm : is_write_mode
                 (if isinstance_bytes d then Mode_wb else Mode_w) = true)
    by (destruct (isinstance_bytes d); reflexivity).
  unfold DataHandler.write_file, try_except, bind, py_open.
  change (cannot_open (log ?e w) ?x ?m) with (cannot_open w x m).
  destruct (cannot_open_write w p _ Hm) as [[-> Hw] | (e & -> & Hw & He & _)].
  - rewrite Hm. unfold file_write, written.
    destruct (dir_exists w (dirname p)) eqn:Hpar;
      [|unfold writable in Hw; rewrite Hpar, andb_false_r in Hw;
        discriminate].
    destruct d; simpl; destruct (disk_full w) eqn:Hfull; simpl;
      eexists;
      try (right; eexists; split; [tauto|]; split; [reflexivity|];
           simpl; rewrite <- app_assoc; repeat split; try reflexivity;
           intros; discriminate);
      left; eexists; (split; [reflexivity|]); repeat (split; [assumption|]);
      (split; [reflexivity|]); (split; [reflexivity|]);
      simpl; rewrite <- app_assoc, insert_insert_eq; repeat split;
      reflexivity.
  - simpl. unfold IOError. rewrite He. simpl.
    eexists. right. eexists. split; [tauto|]. split; [reflexivity|].
    simpl. rewrite <- app_assoc. repeat split; reflexivity.
Qed.

(** A text read of a path that cannot be opened, or whose file is no text,
    prints one line and returns [None]; otherwise it returns the text. *)
Lemma read_file_text (p : path) (w : world) (s : string) :
  read_text w p = Some s ->
  DataHandler.read_file p false w =
    (Ok (VStr s), log (ERead p) (log (EOpen p Mode_r) w)).
Proof.
  unfold read_text, DataHandler.read_file, try_except, bind, py_open.
  change (cannot_open (log ?e w) ?x ?m) with (cannot_open w x m).
  pose proof (cannot_open_read w p Mode_r eq_refl) as Ho.
  destruct (cannot_open w p Mode_r) as [e|].
  - destruct Ho as [[-> | Hf] _]; [discriminate|]. rewrite Hf.
    destruct (_ || _); discriminate.
  - destruct Ho as (-> & -> & -> & _). simpl. unfold file_read. simpl.
    destruct (files w !! p) as [[t|b]|] eqn:Hf; simpl; rewrite ?Hf; simpl.
    + now intros [= ->].
    + destruct (utf8_valid b); [now intros [= ->] | discriminate].
    + discriminate.
Qed.

Lemma read_file_unreadable (p : path) (w : world) :
  read_text w p = None ->
  exists msg w1,
    DataHandler.read_file p false w = (Ok VNone, log (EPrint msg) w1) /\
    (w1 = log (EOpen p Mode_r) w \/
     w1 = log (ERead p) (log (EOpen p Mode_r) w)).
Proof.
  unfold read_text, DataHandler.read_file, try_except, bind, py_open.
  change (cannot_open (log ?e w) ?x ?m) with (cannot_open w x m).
  pose proof (cannot_open_read w p Mode_r eq_refl) as Ho.
  destruct (cannot_open w p Mode_r) as [[c m]|].
  - intros _. destruct Ho as [_ [Hc | [Hc | [Hc | Hc]]]]; simpl in Hc;
      subst c; simpl; eauto.
  - destruct Ho as (-> & -> & -> & _). simpl. unfold file_read. simpl.
    destruct (files w !! p) as [[t|b]|] eqn:Hf; simpl; rewrite ?Hf; simpl;
      [discriminate | | eauto].
    destruct (utf8_valid b); [discriminate|]. simpl. eauto.
Qed.

(** A path that names nothing at all: one line is printed after the
    attempt to open it, and nothing is read. *)
Lemma read_file_missing (p : path) (w : world) :
  files w !! p = None -> dir_exists w p = false ->
  exists msg,
    DataHandler.read_file p false w =
      (Ok VNone, log (EPrint msg) (log (EOpen p Mode_r) w)).
Proof.
  intros Hf Hd.
  unfold DataHandler.read_file, try_except, bind, py_open.
  change (cannot_open (log ?e w) ?x ?m) with (cannot_open w x m).
  pose proof (cannot_open_read w p Mode_r eq_refl) as Ho.
  destruct (cannot_open w p Mode_r) as [[c m]|].
  - destruct Ho as [_ [Hc | [Hc | [Hc | Hc]]]]; simpl in Hc; subst c;
      simpl; eauto.
  - destruct Ho as (_ & _ & _ & [x Hx]). congruence.
Qed.

(** ** DataHandler: the codec wrappers *)

Section Wrappers.

Variable lib : codecs.

(** Each wrapper returns what the library returned, or prints one line and
    returns [None] when the library raised. *)
Lemma _serialize_json_cases (d : pyval) (w : world) :
  (exists t, ujson_dumps lib d = Ok t /\
     DataHandler._serialize_json lib d w
       = (Ok (VStr t), log (ECall Ujson_dumps) w))
  \/ (exists e msg, ujson_dumps lib d = Raise e /\
     DataHandler._serialize_json lib d w =
       (Ok VNone, log (EPrint msg) (log (ECall Ujson_dumps) w))).
Proof.
  unfold DataHandler._serialize_json, try_except, bind, call_lib.
  destruct (ujson_dumps lib d) as [t|[c m]]; [left; eauto|right].
  exists (mk_exn c m). destruct c; simpl; eauto.
Qed.

Lemma _serialize_yaml_cases (d : pyval) (w : world) :
  (exists t, yaml_dump lib d = Ok t /\
     DataHandler._serialize_yaml lib d w
       = (Ok (VStr t), log (ECall Yaml_dump) w))
  \/ (exists e msg, yaml_dump lib d = Raise e /\
     DataHandler._serialize_yaml lib d w =
       (Ok VNone, log (EPrint msg) (log (ECall Yaml_dump) w))).
Proof.
  unfold DataHandler._serialize_yaml, try_except, bind, call_lib.
  destruct (yaml_dump lib d) as [t|[c m]]; [left; eauto|right].
  exists (mk_exn c m). destruct c; simpl; eauto.
Qed.

Lemma _deserialize_json_cases (d : pyval) (w : world) :
  (exists v, ujson_loads lib d = Ok v /\
     DataHandler._deserialize_json lib d w
       = (Ok v, log (ECall Ujson_loads) w))
  \/ (exists e msg, ujson_loads lib d = Raise e /\
     DataHandler._deserialize_json lib d w =
       (Ok VNone, log (EPrint msg) (log (ECall Ujson_loads) w))).
Proof.
  unfold DataHandler._deserialize_json, try_except, bind, call_lib.
  destruct (ujson_loads lib d) as [t|[c m]]; [left; eauto|right].
  exists (mk_exn c m). destruct c; simpl; eauto.
Qed.

Lemma _deserialize_yaml_cases (d : pyval) (w : world) :
  (exists v, yaml_safe_load lib d = Ok v /\
     DataHandler._deserialize_yaml lib d w
       = (Ok v, log (ECall Yaml_safe_load) w))
  \/ (exists e msg, yaml_safe_load lib d = Raise e /\
     DataHandler._deserialize_yaml lib d w =
       (Ok VNone, log (EPrint msg) (log (ECall Yaml_safe_load) w))).
Proof.
  unfold DataHandler._deserialize_yaml, try_except, bind, call_lib.
  destruct (yaml_safe_load lib d) as [t|[c m]]; [left; eauto|right].
  exists (mk_exn c m). destruct c; simpl; eauto.
Qed.

Lemma _deserialize_toml_cases (d : pyval) (w : world) :
  (exists v, tomllib_loads lib d = Ok v /\
     DataHandler._deserialize_toml lib d w
       = (Ok v, log (ECall Tomllib_loads) w))
  \/ (exists e msg, tomllib_loads lib d = Raise e /\
     DataHandler._deserialize_toml lib d w =
       (Ok VNone, log (EPrint msg) (log (ECall Tomllib_loads) w))).
Proof.
  unfold DataHandler._deserialize_toml, try_except, bind, call_lib.
  destruct (tomllib_loads lib d) as [t|[c m]]; [left; eauto|right].
  exists (mk_exn c m). destruct c; simpl; eauto.
Qed.

(** The wrappers add nothing of their own: when the library encodes [r] as
    [t] and decodes [t] as [v], encoding then decoding through the wrappers
    yields [v] and prints nothing. *)
Lemma json_wrappers_forward (r v : pyval) (t : string) (w : world) :
  ujson_dumps lib r = Ok t -> ujson_loads lib (VStr t) = Ok v ->
  (text <~ DataHandler._serialize_json lib r ;;
   DataHandler._deserialize_json lib text) w
  = (Ok v, log (ECall Ujson_loads) (log (ECall Ujson_dumps) w)).
Proof.
  intros Hd Hl. unfold bind.
  destruct (_serialize_json_cases r w)
    as [(t' & Ht' & ->)|(e & msg & He & _)]; [|congruence].
  rewrite Hd in Ht'. injection Ht' as <-.
  destruct (_deserialize_json_cases (VStr t) (log (ECall Ujson_dumps) w))
    as [(v' & Hv' & ->)|(e & msg & He & _)]; congruence.
Qed.

Lemma yaml_wrappers_forward (r v : pyval) (t : string) (w : world) :
  yaml_dump lib r = Ok t -> yaml_safe_load lib (VStr t) = Ok v ->
  (text <~ DataHandler._serialize_yaml lib r ;;
   DataHandler._deserialize_yaml lib text) w
  = (Ok v, log (ECall Yaml_safe_load) (log (ECall Yaml_dump) w)).
Proof.
  intros Hd Hl. unfold bind.
  destruct (_serialize_yaml_cases r w)
    as [(t' & Ht' & ->)|(e & msg & He & _)]; [|congruence].
  rewrite Hd in Ht'. injection Ht' as <-.
  destruct (_deserialize_yaml_cases (VStr t) (log (ECall Yaml_dump) w))
    as [(v' & Hv' & ->)|(e & msg & He & _)]; congruence.
Qed.

(** The catch-all of each pipeline: whatever the [try] block does, the
    caller gets a normal return. *)
Lemma save_file_absorbs (st : mstate) :
  save_file lib st =
    (Ok tt, absorbed "Unexpected error saving data: "
              (fst (save_body lib st)) (snd (save_body lib st))).
Proof.
  unfold save_file. rewrite catch_all.
  destruct (save_body lib st) as [[[]|e] st']; reflexivity.
Qed.

Lemma load_file_absorbs (st : mstate) :
  load_file lib st =
    (Ok tt, absorbed "Unexpected error loading data: "
              (fst (load_body lib st)) (snd (load_body lib st))).
Proof.
  unfold load_file. rewrite catch_all.
  destruct (load_body lib st) as [[[]|e] st']; reflexivity.
Qed.

End Wrappers.

(** ** Hooks *)

Lemma on_saved_file_run (h : handler) (w : world) :
  on_saved_file (mk_mstate h w) =
    (match klass h with
     | BaseHandler => Raise saved_hook_error
     | ConfigHandler => Ok tt
     end, mk_mstate h (log (EHook On_saved_file) w)).
Proof. run. destruct (klass h); reflexivity. Qed.

Lemma update_global_unfold (h : handler) (w : world) :
  update_global (mk_mstate h w) =
    let st := mk_mstate h (log (EHook Update_global) w) in
    match klass h with
    | BaseHandler =>
      (Raise (mk_exn NotImplementedError
                "Subclasses must implement update_global()"), st)
    | ConfigHandler =>
      match cdata_val w (class_data h) with
      | VDict m =>
        (Ok tt,
         mk_mstate h
           (set_heap
              (<[configData w :=
                   mk_obj (dc_fields (heap w !!! configData w))
                          (m ∪ attrs (heap w !!! configData w))]> (heap w))
              (log (EHook Update_global) w)))
      | v =>
        (Raise (mk_exn TypeError
                  ("dict.update() argument after ** must be a mapping, not "
                   +:+ type_name v)), st)
      end
    end.
Proof.
  destruct h as [k obj j y t cd p]. destruct k; run; [reflexivity|].
  destruct cd as [l|[]]; reflexivity.
Qed.

Lemma update_global_run (h : handler) (w : world) (m : gmap string pyval) :
  klass h = ConfigHandler ->
  cdata_val w (class_data h) = VDict m ->
  update_global (mk_mstate h w) =
    (Ok tt,
     mk_mstate h
       (set_heap
          (<[configData w :=
               mk_obj (dc_fields (heap w !!! configData w))
                      (m ∪ attrs (heap w !!! configData w))]> (heap w))
          (log (EHook Update_global) w))).
Proof.
  intros Hk Hm. rewrite update_global_unfold. cbv zeta. now rewrite Hk, Hm.
Qed.

(** Whatever its class and its data, [update_global] touches no object
    other than the one [configData] names. *)
Lemma update_global_frame (h : handler) (w : world) (l : loc) :
  l <> configData w ->
  heap (env (snd (update_global (mk_mstate h w)))) !! l = heap w !! l.
Proof.
  intros Hl. rewrite update_global_unfold. cbv zeta.
  destruct (klass h); [reflexivity|].
  destruct (cdata_val w (class_data h)); try reflexivity.
  cbn [snd env heap set_heap]. now apply lookup_insert_ne.
Qed.

(** ** Construction *)

Lemma prefixes_self (d : path) : d <> [] -> In d (prefixes d).
Proof.
  induction d as [|c d IH]; [congruence|]. intros _. simpl.
  destruct d as [|c' d]; [now left|]. right.
  apply in_map. apply IH. discriminate.
Qed.

Lemma makedirs_ok (d : path) (w : world) (u : unit) (w1 : world) :
  makedirs d w = (Ok u, w1) ->
  w1 = set_dirs (list_to_set (prefixes d) ∪ dirs w) (log (EMakedirs d) w).
Proof.
  unfold makedirs. destruct (under_file _ _); [discriminate|].
  destruct (bool_decide _); [discriminate|].
  now intros [= _ <-].
Qed.

Lemma dir_exists_after_makedirs (d : path) (w : world) :
  dir_exists (set_dirs (list_to_set (prefixes d) ∪ dirs w)
                (log (EMakedirs d) w)) d = true.
Proof.
  unfold dir_exists, set_dirs. cbn [dirs]. rewrite bool_decide_eq_true.
  destruct d as [|c d]; [now left|]. right. right.
  apply elem_of_union_l, elem_of_list_to_set, list_elem_of_In.
  apply prefixes_self. discriminate.
Qed.

(** What a successful [BaseHandler.__init__] leaves: the fields as given,
    a mapping in [class_data], and the parent directory of the path. *)
Lemma BaseHandler_init_ok k obj p j y t w h w1 :
  BaseHandler_init k obj p j y t w = (Ok h, w1) ->
  klass h = k /\ class_obj h = obj /\ file_path h = Path p /\
  serialize_json h = j /\ serialize_yaml h = y /\ serialize_toml h = t /\
  heap w1 = heap w /\ configData w1 = configData w /\ files w1 = files w /\
  dir_exists w1 (dirname p) = true /\
  (exists m, cdata_val w1 (class_data h) = VDict m).
Proof.
  unfold BaseHandler_init, bind, ret.
  assert (Hdir : forall w2 u,
      match dirname p with
      | [] => (fun s => (Ok tt, s))
      | _ :: _ => makedirs (dirname p)
      end w = (Ok u, w2) ->
      heap w2 = heap w /\ configData w2 = configData w /\
      files w2 = files w /\ dir_exists w2 (dirname p) = true).
  { intros w2 u. destruct (dirname p) as [|c d] eqn:Hd.
    - intros [= _ <-]. repeat split; reflexivity.
    - intros H. apply makedirs_ok in H. subst w2.
      repeat split; try reflexivity. apply dir_exists_after_makedirs. }
  cbv zeta. destruct (dc_fields (heap w !!! obj)) as [fs|];
    [destruct (asdict (attrs (heap w !!! obj)) fs) as [m|]; [|discriminate]|];
    match goal with
    | |- context [let (_, _) := ?X in _] => destruct X as [[u|e] w2] eqn:Hm
    end;
    try discriminate; intros [= <- <-]; apply Hdir in Hm as (Hh & Hc & Hf & He);
    cbn [klass class_obj file_path serialize_json serialize_yaml serialize_toml
         class_data cdata_val]; rewrite ?Hh; repeat split; eauto.
Qed.

(** A successful [ConfigHandler.__init__] was given no [serialize_yaml]
    keyword and is [BaseHandler.__init__] with [serialize_yaml=True]. *)
Lemma ConfigHandler_init_ok p cfg kwargs w h w1 :
  ConfigHandler_init p cfg kwargs w = (Ok h, w1) ->
  kwargs !! "serialize_yaml" = None /\
  BaseHandler_init ConfigHandler (default (configData w) cfg) p
    (default false (kwargs !! "serialize_json")) true
    (default false (kwargs !! "serialize_toml")) w = (Ok h, w1).
Proof.
  unfold ConfigHandler_init.
  destruct (bool_decide (is_Some (kwargs !! "serialize_yaml"))) eqn:Hy;
    [discriminate|].
  destruct (bool_decide (_ ∨ _)); [discriminate|].
  destruct (bool_decide (_ ⊆ _)); [|discriminate].
  intros H. split; [|exact H].
  apply bool_decide_eq_false in Hy.
  destruct (kwargs !! "serialize_yaml"); [|reflexivity].
  exfalso. apply Hy. eauto.
Qed.

(** ** The save pipeline *)

(** The tail of [save_file] once [data] is bound: the write, then the
    hook only when the write returned a true value. *)
Lemma save_tail_cases (h : handler) (w : world) (d : pyval) :
  exists w',
    (exists c, payload d = Some c /\ writable w (file_path h) = true /\
       disk_full w = false /\
       save_tail (Some d) (mk_mstate h w) = on_saved_file (mk_mstate h w') /\
       trace w' = trace w ++
         [EOpen (file_path h) (if isinstance_bytes d then Mode_wb else Mode_w);
          EWrite (file_path h) d] /\
       files w' = <[file_path h := c]> (files w) /\ dirs w' = dirs w /\
       heap w' = heap w)
    \/ (exists msg,
       (payload d = None \/ writable w (file_path h) = false \/
        disk_full w = true) /\
       save_tail (Some d) (mk_mstate h w) = (Ok tt, mk_mstate h w') /\
       trace w' = trace w ++
         [EOpen (file_path h) (if isinstance_bytes d then Mode_wb else Mode_w);
          EPrint msg] /\
       (dir_exists w (dirname (file_path h)) = false -> files w' = files w) /\
       dirs w' = dirs w /\ heap w' = heap w).
Proof.
  destruct (write_file_cases (file_path h) d w)
    as [w' [(c & Hc & Hw & Hf & Hrun & H)|(msg & Hc & Hrun & H)]];
    exists w'; [left; exists c | right; exists msg];
    (split; [assumption|]); repeat (split; [tauto|]);
    unfold save_tail, bind, get_self, read_local, ret, liftW; simpl;
    rewrite Hrun; simpl; tauto.
Qed.

(** Every [save_file] returns normally, leaves the instance, the
    directories and the object store as they were, and ends in one of the
    four outcomes. *)
Lemma save_file_cases (lib : codecs) (h : handler) (w : world) :
  let r := save_file lib (mk_mstate h w) in
  fst r = Ok tt /\ self (snd r) = h /\
  dirs (env (snd r)) = dirs w /\ heap (env (snd r)) = heap w /\
  save_outcome lib h w (env (snd r)).
Proof.
  cbv zeta. rewrite save_file_absorbs. cbn [fst snd].
  destruct h as [k obj j y t cd p].
  assert (Htail : forall enc s w1,
     trace w1 = trace w ++ [ECall enc] -> files w1 = files w ->
     dirs w1 = dirs w -> heap w1 = heap w -> disk_full w1 = disk_full w ->
     writable w1 p = writable w p ->
     encoded lib (mk_handler k obj j y t cd p) w = Some s ->
     encoder (mk_handler k obj j y t cd p) = enc ->
     let st := mk_mstate (mk_handler k obj j y t cd p) w1 in
     let r := save_tail (Some (VStr s)) st in
     let st' := absorbed "Unexpected error saving data: " (fst r) (snd r) in
     Ok tt = Ok tt /\ self st' = mk_handler k obj j y t cd p /\
     dirs (env st') = dirs w /\ heap (env st') = heap w /\
     save_outcome lib (mk_handler k obj j y t cd p) w (env st')).
  { intros enc s w1 Htr Hfiles Hdirs Hheap Hfull Hwr Henc Hencr. cbv zeta.
    destruct (save_tail_cases (mk_handler k obj j y t cd p) w1 (VStr s))
      as [w' [(c & Hc & Hw & Hf & Hrun & Htr' & Hfl & Hd & Hh)
             |(msg & Hc & Hrun & Htr' & Hfl & Hd & Hh)]];
      rewrite Hrun; [rewrite on_saved_file_run|]; cbn [fst snd klass file_path] in *.
    - injection Hc as <-.
      destruct k; cbn [absorbed self env]; simpl;
        (split; [reflexivity|]); (split; [reflexivity|]);
        (split; [now rewrite Hd|]); (split; [now rewrite Hh|]);
        (eapply save_written; [eassumption | cbn [file_path]; now rewrite <- Hwr
           | now rewrite <- Hfull
           | cbn [file_path files log]; now rewrite Hfl, Hfiles
           | apply new_events_app; simpl; rewrite Htr', Htr, Hencr, <- ?app_assoc; reflexivity]).
    - cbn [absorbed self env].
      (split; [reflexivity|]); (split; [reflexivity|]);
        (split; [now rewrite Hd|]); (split; [now rewrite Hh|]).
      eapply save_not_written with (msg := msg); [eassumption | | |].
      + destruct Hc as [Hc|[Hc|Hc]]; [discriminate | left; cbn [file_path]; now rewrite <- Hwr
         | right; now rewrite <- Hfull].
      + simpl. intros Hpar. rewrite Hfl; [assumption|].
        unfold dir_exists in *. now rewrite Hdirs.
      + apply new_events_app. simpl. rewrite Htr', Htr, Hencr, <- ?app_assoc. reflexivity. }
  unfold save_body, bind, get_self, get_class_data, liftW. simpl.
  destruct j; [|destruct y]; simpl.
  - destruct (_serialize_json_cases lib (cdata_val w cd) w)
      as [(s & Hs & ->)|(e & msg & He & ->)]; cbn [is_None].
    + apply (Htail Ujson_dumps); try reflexivity.
      unfold encoded. simpl. now rewrite Hs.
    + cbn [fst snd absorbed ret self env]. repeat (split; [reflexivity|]).
      eapply save_not_encoded with (msg := msg);
        [unfold encoded; simpl; now rewrite He | reflexivity
        | apply new_events_app; simpl; rewrite <- ?app_assoc; reflexivity].
  - destruct (_serialize_yaml_cases lib (cdata_val w cd) w)
      as [(s & Hs & ->)|(e & msg & He & ->)]; cbn [is_None].
    + apply (Htail Yaml_dump); try reflexivity.
      unfold encoded. simpl. now rewrite Hs.
    + cbn [fst snd absorbed ret self env]. repeat (split; [reflexivity|]).
      eapply save_not_encoded with (msg := msg);
        [unfold encoded; simpl; now rewrite He | reflexivity
        | apply new_events_app; simpl; rewrite <- ?app_assoc; reflexivity].
  - run. repeat (split; [reflexivity|]).
    apply save_no_encoder; try reflexivity. apply new_events_log1.
Qed.

(** With an encoder enabled, [save_file] calls it once and calls no other
    library function. *)
Lemma save_file_lib_calls (lib : codecs) (h : handler) (w : world) :
  serialize_json h = true \/ serialize_yaml h = true ->
  lib_calls (new_events w (env (snd (save_file lib (mk_mstate h w)))))
    = [encoder h].
Proof.
  intros Hfl.
  destruct (save_file_cases lib h w) as (_ & _ & _ & _ & Hout).
  destruct Hout as [Hj Hy _ _ | msg _ _ -> | t msg _ _ _ -> | t _ _ _ _ ->].
  - rewrite Hj, Hy in Hfl. destruct Hfl; discriminate.
  - reflexivity.
  - reflexivity.
  - destruct (klass h); reflexivity.
Qed.

(** ** The load pipeline *)

(** The assignment and the hook call no library function. *)
Lemma load_tail_lib_calls
    (h : handler) (w w1 : world) (v : pyval) (evs : list event) :
  trace w1 = trace w ++ evs ->
  let r := load_tail v (mk_mstate h w1) in
  lib_calls (new_events w
     (env (absorbed "Unexpected error loading data: " (fst r) (snd r))))
  = lib_calls evs.
Proof.
  intros Htr. cbv zeta. destruct h as [k obj j y t cd p].
  unfold load_tail, bind, assign_class_data.
  cbn [self env]. unfold on_loaded_file, bind, liftW, emit, get_self.
  cbn [self env klass set_class_data].
  assert (Hfin : forall tl w2, trace w2 = trace w1 ++ tl -> lib_calls tl = [] ->
            lib_calls (new_events w w2) = lib_calls evs).
  { intros tl w2 H2 Htl. erewrite new_events_app;
      [| rewrite H2, Htr, <- app_assoc; reflexivity].
    unfold lib_calls in *. rewrite omap_app, Htl. apply app_nil_r. }
  destruct k.
  - simpl. eapply Hfin; [simpl; rewrite <- app_assoc; reflexivity | reflexivity].
  - unfold ConfigHandler_on_loaded_file. rewrite update_global_unfold.
    cbn [klass cdata_val class_data set_class_data].
    destruct v; simpl;
      (eapply Hfin; [simpl; rewrite <- ?app_assoc; reflexivity | reflexivity]).
Qed.

(** After a decoder ran in [w1]: a [None] result ends the run, any other
    goes through [load_tail]; no further library call is made. *)
Ltac after_decode Hw1 :=
  simpl;
  first
    [ erewrite load_tail_lib_calls;
        [|simpl; rewrite Hw1, <- ?app_assoc; reflexivity]
    | erewrite new_events_app;
        [|simpl; rewrite Hw1, <- ?app_assoc; reflexivity] ];
  reflexivity.

(** [load_file] calls the decoder of the first enabled format once when the
    file could be read, and no library function otherwise. *)
Lemma load_file_lib_calls (lib : codecs) (h : handler) (w : world) :
  lib_calls (new_events w (env (snd (load_file lib (mk_mstate h w))))) =
    match read_text w (file_path h) with
    | Some _ => decoder_calls h
    | None => []
    end.
Proof.
  rewrite load_file_absorbs. cbn [snd].
  destruct h as [k obj j y t cd p]. unfold decoder_calls.
  unfold load_body, bind, get_self, liftW. simpl.
  destruct (read_text w p) as [s|] eqn:Hs.
  - rewrite (read_file_text _ _ _ Hs). simpl.
    set (w1 := log (ERead p) (log (EOpen p Mode_r) w)).
    assert (Hw1 : trace w1 = trace w ++ [EOpen p Mode_r; ERead p]).
    { subst w1. simpl. rewrite <- !app_assoc. reflexivity. }
    clearbody w1.
    destruct j; [|destruct y; [|destruct t]]; simpl.
    + destruct (_deserialize_json_cases lib (VStr s) w1)
        as [(v & _ & ->)|(e & msg & _ & ->)]; simpl;
        [destruct (is_None v)|]; after_decode Hw1.
    + destruct (_deserialize_yaml_cases lib (VStr s) w1)
        as [(v & _ & ->)|(e & msg & _ & ->)]; simpl;
        [destruct (is_None v)|]; after_decode Hw1.
    + destruct (_deserialize_toml_cases lib (VStr s) w1)
        as [(v & _ & ->)|(e & msg & _ & ->)]; simpl;
        [destruct (is_None v)|]; after_decode Hw1.
    + erewrite load_tail_lib_calls; [|apply Hw1]. reflexivity.
  - destruct (read_file_unreadable _ _ Hs) as (msg & w1 & -> & [-> | ->]);
      simpl; trace_norm; reflexivity.
Qed.

(** * The claims *)

(** ** C1: the hooks of the base class *)

(** C1, as the code has it.  On a [BaseHandler], the [try] block of
    [save_file] (of [load_file]) raises the [NotImplementedError] of the
    hook exactly when the run entered [on_saved_file] ([on_loaded_file]),
    not earlier; the error does not reach the caller: the catch-all clause
    of the pipeline prints it behind "Unexpected error saving (loading)
    data: " and the call returns normally. *)
Theorem base_hook_error_is_absorbed (lib : codecs) (h : handler) (w : world) :
  klass h = BaseHandler ->
  let sb := save_body lib (mk_mstate h w) in
  let lb := load_body lib (mk_mstate h w) in
  (fst sb = Raise saved_hook_error
     <-> In (EHook On_saved_file) (new_events w (env (snd sb)))) /\
  (fst lb = Raise loaded_hook_error
     <-> In (EHook On_loaded_file) (new_events w (env (snd lb)))) /\
  save_file lib (mk_mstate h w) =
    (Ok tt, absorbed "Unexpected error saving data: " (fst sb) (snd sb)) /\
  load_file lib (mk_mstate h w) =
    (Ok tt, absorbed "Unexpected error loading data: " (fst lb) (snd lb)).
Proof.
  intros Hk sb lb. split; [|split; [|split]].
  - subst sb. destruct h as [k obj j y t cd p]. simpl in Hk. subst k.
    unfold save_body, bind, get_self, get_class_data, liftW. simpl.
    assert (Htail : forall d w1 evs, trace w1 = trace w ++ evs ->
               ~ In (EHook On_saved_file) evs ->
               let st := mk_mstate (mk_handler BaseHandler obj j y t cd p) w1 in
               fst (save_tail (Some d) st) = Raise saved_hook_error
               <-> In (EHook On_saved_file)
                      (new_events w (env (snd (save_tail (Some d) st))))).
    { intros d w1 evs Hw1 Hevs st. subst st.
      destruct (save_tail_cases (mk_handler BaseHandler obj j y t cd p) w1 d)
        as [w' [(c & _ & _ & _ & Hrun & Htr & _)|(msg & _ & Hrun & Htr & _)]];
        rewrite Hrun; [rewrite on_saved_file_run|]; simpl.
      - erewrite new_events_app;
          [| simpl; rewrite Htr, Hw1, <- !app_assoc; reflexivity].
        split; [intros _|reflexivity]. rewrite !in_app_iff. simpl. tauto.
      - erewrite new_events_app;
          [| rewrite Htr, Hw1, <- !app_assoc; reflexivity].
        split; [discriminate|]. rewrite in_app_iff. simpl.
        intros [H|[H|[H|[]]]]; [tauto|discriminate..]. }
    destruct j; [|destruct y]; simpl.
    + destruct (_serialize_json_cases lib (cdata_val w cd) w)
        as [(s & _ & ->)|(e & msg & _ & ->)]; simpl.
      * apply (Htail _ _ [ECall Ujson_dumps]); [reflexivity|].
        simpl. intros [H|[]]; discriminate.
      * hook_iff.
    + destruct (_serialize_yaml_cases lib (cdata_val w cd) w)
        as [(s & _ & ->)|(e & msg & _ & ->)]; simpl.
      * apply (Htail _ _ [ECall Yaml_dump]); [reflexivity|].
        simpl. intros [H|[]]; discriminate.
      * hook_iff.
    + run. unfold new_events. rewrite drop_all. simpl.
      split; [discriminate|tauto].
  - subst lb. destruct h as [k obj j y t cd p]. simpl in Hk. subst k.
    unfold load_body, bind, get_self, liftW. simpl.
    destruct (read_text w p) as [s|] eqn:Hs.
    + rewrite (read_file_text _ _ _ Hs). simpl.
      destruct j; [|destruct y; [|destruct t]]; simpl.
      * destruct (_deserialize_json_cases lib (VStr s)
                    (log (ERead p) (log (EOpen p Mode_r) w)))
          as [(v & _ & ->)|(e & msg & _ & ->)]; simpl;
          [destruct (is_None v)|]; run; hook_iff.
      * destruct (_deserialize_yaml_cases lib (VStr s)
                    (log (ERead p) (log (EOpen p Mode_r) w)))
          as [(v & _ & ->)|(e & msg & _ & ->)]; simpl;
          [destruct (is_None v)|]; run; hook_iff.
      * destruct (_deserialize_toml_cases lib (VStr s)
                    (log (ERead p) (log (EOpen p Mode_r) w)))
          as [(v & _ & ->)|(e & msg & _ & ->)]; simpl;
          [destruct (is_None v)|]; run; hook_iff.
      * run. hook_iff.
    + destruct (read_file_unreadable _ _ Hs) as (msg & w1 & -> & [-> | ->]);
        simpl; hook_iff.
  - apply save_file_absorbs.
  - apply load_file_absorbs.
Qed.

Lemma base_hook_error_is_absorbed_witness :
  klass base_json = BaseHandler /\
  let sb := save_body stub_codecs (mk_mstate base_json w_clean) in
  let lb := load_body stub_codecs (mk_mstate base_json w_clean) in
  (fst sb = Raise saved_hook_error
     <-> In (EHook On_saved_file) (new_events w_clean (env (snd sb)))) /\
  (fst lb = Raise loaded_hook_error
     <-> In (EHook On_loaded_file) (new_events w_clean (env (snd lb)))) /\
  save_file stub_codecs (mk_mstate base_json w_clean) =
    (Ok tt, absorbed "Unexpected error saving data: " (fst sb) (snd sb)) /\
  load_file stub_codecs (mk_mstate base_json w_clean) =
    (Ok tt, absorbed "Unexpected error loading data: " (fst lb) (snd lb)).
Proof.
  split; [reflexivity|].
  apply (base_hook_error_is_absorbed stub_codecs base_json w_clean).
  reflexivity.
Defined.

(** C1 as stated fails: a [BaseHandler] whose save reaches the hook
    returns normally; no [NotImplementedError] comes out of [save_file]. *)
Lemma base_save_returns_normally :
  In (EHook On_saved_file)
     (trace (env (snd (save_file stub_codecs (mk_mstate base_json w_clean)))))
  /\ fst (save_file stub_codecs (mk_mstate base_json w_clean)) = Ok tt
  /\ forall e,
       fst (save_file stub_codecs (mk_mstate base_json w_clean)) <> Raise e.
Proof.
  assert (H : fst (save_file stub_codecs (mk_mstate base_json w_clean))
              = Ok tt) by (vm_compute; reflexivity).
  split; [vm_compute; tauto|]. split; [exact H|].
  intros e. rewrite H. discriminate.
Qed.

(** ** C2: the merge of [update_global] *)

(** C2.  For a [ConfigHandler] whose [class_data] is a record [m],
    [update_global] returns normally and the attributes of the singleton
    become a field-level merge: every key of [m] holds the value [m] gives
    it, every other attribute is as before.  In particular the attributes
    a:1, b:2 merged with the record b:3, c:4 are a:1, b:3, c:4. *)
Theorem update_global_merges
    (h : handler) (w : world) (m : gmap string pyval) :
  klass h = ConfigHandler ->
  cdata_val w (class_data h) = VDict m ->
  let r := update_global (mk_mstate h w) in
  let before := attrs (heap w !!! configData w) in
  let after := attrs (heap (env (snd r)) !!! configData w) in
  fst r = Ok tt /\
  (forall k v, m !! k = Some v -> after !! k = Some v) /\
  (forall k, m !! k = None -> after !! k = before !! k) /\
  (before = {[ "a" := VInt 1; "b" := VInt 2 ]} ->
   m = {[ "b" := VInt 3; "c" := VInt 4 ]} ->
   after = {[ "a" := VInt 1; "b" := VInt 3; "c" := VInt 4 ]}).
Proof.
  intros Hk Hm r before after. subst r before after.
  rewrite (update_global_run _ _ _ Hk Hm). simpl.
  rewrite lookup_total_insert_eq. simpl.
  split; [reflexivity|]. split; [|split].
  - intros k v Hkv. now apply lookup_union_Some_l.
  - intros k Hnone. now apply lookup_union_r.
  - intros -> ->. vm_compute. reflexivity.
Qed.

Lemma update_global_merges_witness :
  klass config_yaml = ConfigHandler /\
  cdata_val w_clean (class_data config_yaml)
    = VDict {[ "b" := VInt 3; "c" := VInt 4 ]} /\
  let r := update_global (mk_mstate config_yaml w_clean) in
  let before := attrs (heap w_clean !!! configData w_clean) in
  let after := attrs (heap (env (snd r)) !!! configData w_clean) in
  fst r = Ok tt /\
  (forall k v, ({[ "b" := VInt 3; "c" := VInt 4 ]} : gmap string pyval) !! k
               = Some v -> after !! k = Some v) /\
  (forall k, ({[ "b" := VInt 3; "c" := VInt 4 ]} : gmap string pyval) !! k
             = None -> after !! k = before !! k) /\
  (before = {[ "a" := VInt 1; "b" := VInt 2 ]} ->
   ({[ "b" := VInt 3; "c" := VInt 4 ]} : gmap string pyval)
     = {[ "b" := VInt 3; "c" := VInt 4 ]} ->
   after = {[ "a" := VInt 1; "b" := VInt 3; "c" := VInt 4 ]}).
Proof.
  split; [reflexivity|]. split; [reflexivity|].
  apply (update_global_merges config_yaml w_clean
           {[ "b" := VInt 3; "c" := VInt 4 ]}); reflexivity.
Defined.

(** ** C3: loading a path that does not exist *)

(** C3.  When the bound path names neither a file nor a directory,
    [load_file] returns normally and changes nothing but the log, to which
    it adds the attempt to open the file and one diagnostic: the instance,
    hence [class_data], is as before, and [on_loaded_file] is not
    entered. *)
Theorem load_file_missing_path (lib : codecs) (h : handler) (w : world) :
  files w !! file_path h = None ->
  dir_exists w (file_path h) = false ->
  let r := load_file lib (mk_mstate h w) in
  (exists msg,
     r = (Ok tt,
          mk_mstate h (log (EPrint msg)
                         (log (EOpen (file_path h) Mode_r) w)))) /\
  cdata_val (env (snd r)) (class_data (self (snd r)))
    = cdata_val w (class_data h) /\
  ~ In (EHook On_loaded_file) (new_events w (env (snd r))).
Proof.
  intros Hf Hd r.
  destruct (read_file_missing _ _ Hf Hd) as [msg Hread].
  assert (Hr : r = (Ok tt,
                    mk_mstate h
                      (log (EPrint msg)
                         (log (EOpen (file_path h) Mode_r) w)))).
  { subst r. rewrite load_file_absorbs. run. rewrite Hread. reflexivity. }
  rewrite Hr. split; [now exists msg|]. split; [reflexivity|].
  trace_norm. simpl. intros [H|[H|[]]]; discriminate.
Qed.

Lemma load_file_missing_path_witness :
  files w_clean !! file_path config_yaml = None /\
  dir_exists w_clean (file_path config_yaml) = false /\
  let r := load_file stub_codecs (mk_mstate config_yaml w_clean) in
  (exists msg,
     r = (Ok tt,
          mk_mstate config_yaml
            (log (EPrint msg)
               (log (EOpen (file_path config_yaml) Mode_r) w_clean)))) /\
  cdata_val (env (snd r)) (class_data (self (snd r)))
    = cdata_val w_clean (class_data config_yaml) /\
  ~ In (EHook On_loaded_file) (new_events w_clean (env (snd r))).
Proof.
  split; [vm_compute; reflexivity|]. split; [vm_compute; reflexivity|].
  apply (load_file_missing_path stub_codecs config_yaml w_clean);
    vm_compute; reflexivity.
Defined.

(** ** C5: [write_file] *)

(** C5, as the code has it.  For every path and payload, [write_file]
    opens the path in binary mode when the payload is [bytes] and in text
    mode otherwise and never raises.  Either the open and the write succeed:
    the file then holds the whole payload and the result is [True].  Or an
    I/O error or another error occurred: the result is then [None], a value
    that tests false but is not [False], and one diagnostic is printed. *)
Theorem write_file_contract (p : path) (d : pyval) (w : world) :
  let mode := if isinstance_bytes d then Mode_wb else Mode_w in
  exists v w',
    DataHandler.write_file p d w = (Ok v, w') /\
    ((v = VBool true /\
      writable w p = true /\ disk_full w = false /\
      (exists c, payload d = Some c /\ files w' !! p = Some c) /\
      new_events w w' = [EOpen p mode; EWrite p d])
     \/
     (v = VNone /\ truthy v = false /\
      (payload d = None \/ writable w p = false \/ disk_full w = true) /\
      exists msg, new_events w w' = [EOpen p mode; EPrint msg])).
Proof.
  cbv zeta.
  destruct (write_file_cases p d w)
    as [w' [(c & Hc & Hw & Hf & Hrun & Htr & Hfl & _)
           |(msg & Hc & Hrun & Htr & _)]].
  - exists (VBool true), w'. split; [exact Hrun|]. left.
    repeat (split; [first [reflexivity | assumption]|]).
    split; [|now apply new_events_app].
    exists c. split; [assumption|]. rewrite Hfl. apply lookup_insert_eq.
  - exists VNone, w'. split; [exact Hrun|]. right.
    repeat (split; [first [reflexivity | assumption]|]).
    exists msg. now apply new_events_app.
Qed.

(** C5 as stated fails: writing below a directory that does not exist is
    an I/O error, and the result is [None], not [False]. *)
Lemma write_file_failure_is_None :
  writable w_clean ["missing"; "out.txt"] = false /\
  fst (DataHandler.write_file ["missing"; "out.txt"] (VStr "x") w_clean)
    = Ok VNone /\
  fst (DataHandler.write_file ["missing"; "out.txt"] (VStr "x") w_clean)
    <> Ok (VBool false).
Proof.
  split; [vm_compute; reflexivity|].
  assert (H : fst (DataHandler.write_file ["missing"; "out.txt"] (VStr "x")
                     w_clean) = Ok VNone) by (vm_compute; reflexivity).
  split; [exact H|]. rewrite H. discriminate.
Qed.

(** ** C6: the format of a [ConfigHandler] *)

(** C6, as the code has it.  A caller who passes [serialize_yaml] gets a
    [TypeError], the constructor passing that keyword itself, and nothing
    has been done.  Every [ConfigHandler] that was constructed has its YAML
    flag set, but the other format flags are not overridden:
    [serialize_json] and [serialize_toml] are as the caller gave them.  Its
    [save_file] calls exactly one library function, the YAML encoder when
    [serialize_json] is off and the JSON encoder when the caller turned it
    on; its [load_file] on a readable file calls exactly the matching
    decoder. *)
Theorem ConfigHandler_codec_choice p cfg kwargs w0 :
  (is_Some (kwargs !! "serialize_yaml") ->
   exists msg,
     ConfigHandler_init p cfg kwargs w0 = (Raise (mk_exn TypeError msg), w0))
  /\
  (forall h w1,
     ConfigHandler_init p cfg kwargs w0 = (Ok h, w1) ->
     kwargs !! "serialize_yaml" = None /\
     serialize_yaml h = true /\
     serialize_json h = default false (kwargs !! "serialize_json") /\
     serialize_toml h = default false (kwargs !! "serialize_toml") /\
     forall lib w,
       lib_calls (new_events w (env (snd (save_file lib (mk_mstate h w)))))
         = [if serialize_json h then Ujson_dumps else Yaml_dump] /\
       lib_calls (new_events w (env (snd (load_file lib (mk_mstate h w)))))
         = match read_text w (file_path h) with
           | Some _ =>
             [if serialize_json h then Ujson_loads else Yaml_safe_load]
           | None => []
           end).
Proof.
  split.
  - intros Hy. unfold ConfigHandler_init.
    rewrite (bool_decide_eq_true_2 _ Hy). eauto.
  - intros h w1 Hinit. apply ConfigHandler_init_ok in Hinit as [Hkw Hinit].
    apply BaseHandler_init_ok in Hinit
      as (_ & _ & _ & Hj & Hy & Ht & _).
    repeat (split; [first [assumption | now symmetry]|]).
    intros lib w. split.
    + rewrite save_file_lib_calls by now right. reflexivity.
    + rewrite load_file_lib_calls. unfold decoder_calls. rewrite Hy.
      destruct (read_text w (file_path h)); [|reflexivity].
      now destruct (serialize_json h).
Qed.

(** [ConfigHandler("cfg.yml", serialize_yaml=False)] is refused, and
    [ConfigHandler("cfg.yml", serialize_json=True)] is constructed with
    both flags set. *)
Lemma ConfigHandler_codec_choice_witness :
  is_Some (({[ "serialize_yaml" := false ]} : gmap string bool)
             !! "serialize_yaml") /\
  (exists msg,
     ConfigHandler_init ["cfg.yml"] None {[ "serialize_yaml" := false ]}
       w_clean = (Raise (mk_exn TypeError msg), w_clean)) /\
  ConfigHandler_init ["cfg.yml"] None {[ "serialize_json" := true ]} w_clean
    = (Ok config_json, w_clean) /\
  ({[ "serialize_json" := true ]} : gmap string bool) !! "serialize_yaml"
    = None /\
  serialize_yaml config_json = true /\
  serialize_json config_json
    = default false
        (({[ "serialize_json" := true ]} : gmap string bool)
           !! "serialize_json") /\
  serialize_toml config_json
    = default false
        (({[ "serialize_json" := true ]} : gmap string bool)
           !! "serialize_toml") /\
  forall lib w,
    lib_calls
      (new_events w (env (snd (save_file lib (mk_mstate config_json w)))))
      = [if serialize_json config_json then Ujson_dumps else Yaml_dump] /\
    lib_calls
      (new_events w (env (snd (load_file lib (mk_mstate config_json w)))))
      = match read_text w (file_path config_json) with
        | Some _ =>
          [if serialize_json config_json then Ujson_loads
           else Yaml_safe_load]
        | None => []
        end.
Proof.
  assert (Hy : is_Some (({[ "serialize_yaml" := false ]} : gmap string bool)
                          !! "serialize_yaml"))
    by (exists false; vm_compute; reflexivity).
  assert (Hinit : ConfigHandler_init ["cfg.yml"] None
                    {[ "serialize_json" := true ]} w_clean
                  = (Ok config_json, w_clean))
    by (vm_compute; reflexivity).
  split; [exact Hy|].
  split; [exact (proj1 (ConfigHandler_codec_choice ["cfg.yml"] None
                          {[ "serialize_yaml" := false ]} w_clean) Hy)|].
  split; [exact Hinit|].
  exact (proj2 (ConfigHandler_codec_choice ["cfg.yml"] None
                  {[ "serialize_json" := true ]} w_clean)
           config_json w_clean Hinit).
Defined.

(** C6 as stated fails: [ConfigHandler("cfg.yml", serialize_json=True)]
    keeps the JSON flag next to the YAML one, and its save goes through the
    JSON encoder. *)
Lemma ConfigHandler_json_flag_wins :
  ConfigHandler_init ["cfg.yml"] None {[ "serialize_json" := true ]} w_clean
    = (Ok config_json, w_clean) /\
  serialize_json config_json = true /\ serialize_yaml config_json = true /\
  lib_calls
    (new_events w_clean
       (env (snd (save_file stub_codecs (mk_mstate config_json w_clean)))))
    = [Ujson_dumps] /\
  files (env (snd (save_file stub_codecs (mk_mstate config_json w_clean))))
    !! ["cfg.yml"] = Some (FText "json-text").
Proof. repeat split; vm_compute; reflexivity. Qed.

(** ** C7: saving with no encoder enabled *)

(** C7, what the code does.  With neither [serialize_json] nor
    [serialize_yaml] set, as when TOML is the only format flag, [save_file]
    writes no file, enters no hook and returns normally, but it is not
    silent: the local [data] was never assigned, reading it raises
    [UnboundLocalError], and the catch-all clause prints one "Unexpected
    error saving data" line. *)
Theorem save_file_unbound_data (lib : codecs) (h : handler) (w : world) :
  serialize_json h = false -> serialize_yaml h = false ->
  save_file lib (mk_mstate h w) =
    (Ok tt, mk_mstate h (log (EPrint unbound_data_msg) w)).
Proof.
  intros Hj Hy. rewrite save_file_absorbs. run. rewrite Hj, Hy. reflexivity.
Qed.

Lemma save_file_unbound_data_witness :
  serialize_json base_toml = false /\ serialize_yaml base_toml = false /\
  serialize_toml base_toml = true /\
  save_file stub_codecs (mk_mstate base_toml w_clean) =
    (Ok tt, mk_mstate base_toml (log (EPrint unbound_data_msg) w_clean)).
Proof.
  split; [reflexivity|]. split; [reflexivity|]. split; [reflexivity|].
  apply (save_file_unbound_data stub_codecs base_toml w_clean); reflexivity.
Defined.

(** ** C8: the parent directory *)




(** ** C9: loading with no format enabled *)

(** C9.  With the three format flags off and a file whose text [s] can be
    read, [load_file] calls no decoder: it stores the text itself, as a
    string, in [class_data] and then enters [on_loaded_file]. *)
Theorem load_file_no_format
    (lib : codecs) (h : handler) (w : world) (s : string) :
  serialize_json h = false -> serialize_yaml h = false ->
  serialize_toml h = false ->
  read_text w (file_path h) = Some s ->
  let r := load_file lib (mk_mstate h w) in
  fst r = Ok tt /\
  class_data (self (snd r)) = CDVal (VStr s) /\
  lib_calls (new_events w (env (snd r))) = [] /\
  exists evs,
    new_events w (env (snd r)) =
      [EOpen (file_path h) Mode_r; ERead (file_path h);
       EHook On_loaded_file] ++ evs.
Proof.
  destruct h as [k obj j y t cd p]. simpl. intros -> -> -> Hs.
  rewrite load_file_absorbs. run. rewrite (read_file_text _ _ _ Hs).
  destruct k; simpl; (split; [reflexivity|]); (split; [reflexivity|]);
    trace_norm; (split; [reflexivity|]); eexists; reflexivity.
Qed.

Lemma load_file_no_format_witness :
  serialize_json base_raw = false /\ serialize_yaml base_raw = false /\
  serialize_toml base_raw = false /\
  read_text w_cfg (file_path base_raw) = Some "b: 3" /\
  let r := load_file stub_codecs (mk_mstate base_raw w_cfg) in
  fst r = Ok tt /\
  class_data (self (snd r)) = CDVal (VStr "b: 3") /\
  lib_calls (new_events w_cfg (env (snd r))) = [] /\
  exists evs,
    new_events w_cfg (env (snd r)) =
      [EOpen (file_path base_raw) Mode_r; ERead (file_path base_raw);
       EHook On_loaded_file] ++ evs.
Proof.
  split; [reflexivity|]. split; [reflexivity|]. split; [reflexivity|].
  split; [vm_compute; reflexivity|].
  apply (load_file_no_format stub_codecs base_raw w_cfg "b: 3");
    vm_compute; reflexivity.
Defined.

(** ** C10: which object [update_global] writes *)

(** C10.  A [ConfigHandler] constructed with a [config_obj] keeps it as
    [class_obj].  When that object is not the one [configData] names,
    [update_global] leaves it, and every object other than the singleton,
    as it was; the keys of a record in [class_data] go into the attributes
    of the singleton. *)
Theorem update_global_targets_singleton (h : handler) (w : world) :
  klass h = ConfigHandler ->
  class_obj h <> configData w ->
  let r := update_global (mk_mstate h w) in
  heap (env (snd r)) !!! class_obj h = heap w !!! class_obj h /\
  (forall l, l <> configData w -> heap (env (snd r)) !! l = heap w !! l) /\
  (forall m, cdata_val w (class_data h) = VDict m ->
     fst r = Ok tt /\
     attrs (heap (env (snd r)) !!! configData w)
       = m ∪ attrs (heap w !!! configData w)) /\
  (forall p cfg kwargs w0 h0 w1,
     ConfigHandler_init p (Some cfg) kwargs w0 = (Ok h0, w1) ->
     klass h0 = ConfigHandler /\ class_obj h0 = cfg /\
     configData w1 = configData w0 /\
     exists m, cdata_val w1 (class_data h0) = VDict m).
Proof.
  intros Hk Hne r. subst r. split; [|split; [|split]].
  - rewrite !lookup_total_alt. now rewrite update_global_frame.
  - intros l Hl. now apply update_global_frame.
  - intros m Hm. rewrite (update_global_run _ _ _ Hk Hm). simpl.
    now rewrite lookup_total_insert_eq.
  - intros p cfg kwargs w0 h0 w1 Hinit.
    apply ConfigHandler_init_ok in Hinit as [_ Hinit].
    apply BaseHandler_init_ok in Hinit. simpl in Hinit. tauto.
Qed.

(** [config_yaml] is bound to [draft], object 1, while [configData] names
    object 0: the merge lands in object 0 and [draft] keeps its fields. *)
Lemma update_global_targets_singleton_witness :
  klass config_yaml = ConfigHandler /\
  class_obj config_yaml <> configData w_clean /\
  let r := update_global (mk_mstate config_yaml w_clean) in
  heap (env (snd r)) !!! class_obj config_yaml = draft /\
  attrs (heap (env (snd r)) !!! configData w_clean)
    = {[ "b" := VInt 3; "c" := VInt 4 ]} ∪ attrs settings.
Proof.
  assert (Hne : class_obj config_yaml <> configData w_clean)
    by (simpl; discriminate).
  split; [reflexivity|]. split; [exact Hne|].
  destruct (update_global_targets_singleton config_yaml w_clean eq_refl Hne)
    as (Hobj & _ & Hmerge & _).
  split.
  - rewrite Hobj. vm_compute. reflexivity.
  - destruct (Hmerge {[ "b" := VInt 3; "c" := VInt 4 ]} eq_refl) as [_ ->].
    reflexivity.
Defined.

(** * Further properties of the code *)

(** ** DataHandler: reading and writing files *)

(** What happens in a [write_file], step by step. *)
Lemma write_file_run (p : path) (d : pyval) (w : world) :
  let m := if isinstance_bytes d then Mode_wb else Mode_w in
  let opened := log (EOpen p m) w in
  if writable w p then
    match written m d with
    | None =>
      exists msg,
        DataHandler.write_file p d w =
          (Ok VNone,
           log (EPrint msg) (set_files (<[p := FText ""]> (files w)) opened))
    | Some (c, bs) =>
      payload d = Some c /\
      DataHandler.write_file p d w =
        if disk_full w then
          (Ok VNone,
           log (EPrint (write_failed_msg p))
             (set_files (<[p := FBytes (take (room w) bs)]> (files w))
                opened))
        else
          (Ok (VBool true),
           log (EWrite p d) (set_files (<[p := c]> (files w)) opened))
    end
  else
    DataHandler.write_file p d w =
      (Ok VNone, log (EPrint (write_failed_msg p)) opened).
Proof.
  cbv zeta.
  assert (Hm : is_write_mode
                 (if isinstance_bytes d then Mode_wb else Mode_w) = true)
    by (destruct (isinstance_bytes d); reflexivity).
  unfold DataHandler.write_file, try_except, bind, py_open.
  change (cannot_open (log ?e w) ?x ?m) with (cannot_open w x m).
  destruct (cannot_open_write w p _ Hm)
    as [[-> ->] | (e & -> & -> & He & _)].
  - rewrite Hm. unfold file_write, written.
    destruct d; simpl; try (eexists; unfold set_files; simpl;
                            rewrite ?insert_insert_eq; reflexivity);
      (split; [reflexivity|]); destruct (disk_full w); simpl;
      unfold set_files, log; simpl; rewrite insert_insert_eq; reflexivity.
  - simpl. unfold IOError. rewrite He. reflexivity.
Qed.



(** The permissions and the answer of the device are no state of the
    program: a [write_file] finds them as they are and leaves them so. *)
Lemma write_file_platform (p : path) (d : pyval) (w : world) :
  let w' := snd (DataHandler.write_file p d w) in
  denied w' = denied w /\ disk_full w' = disk_full w.
Proof.
  cbv zeta. pose proof (write_file_run p d w) as H. cbv zeta in H.
  destruct (writable w p); [|now rewrite H].
  destruct (written _ d) as [[c bs]|]; [|destruct H as [msg ->]; now split].
  destruct H as [_ ->]. destruct (disk_full w) eqn:Hfull; now split.
Qed.


Lemma write_file_others (p : path) (d : pyval) (w : world) :
  let w' := snd (DataHandler.write_file p d w) in
  (forall q, q <> p -> files w' !! q = files w !! q) /\
  dirs w' = dirs w /\ heap w' = heap w /\ configData w' = configData w.
Proof.
  cbv zeta. pose proof (write_file_run p d w) as H. cbv zeta in H.
  destruct (writable w p); [|now rewrite H].
  destruct (written _ d) as [[c bs]|];
    [destruct H as [_ ->]; destruct (disk_full w) | destruct H as [msg ->]];
    cbn [snd files dirs heap configData log set_files];
    (split; [intros q Hq; now apply lookup_insert_ne|]); now repeat split.
Qed.


Lemma dir_exists_same_dirs (w w' : world) (x : path) :
  dirs w' = dirs w -> dir_exists w' x = dir_exists w x.
Proof. unfold dir_exists. now intros ->. Qed.

Lemma prefixes_length (d q : path) :
  In q (prefixes d) -> (length q <= length d)%nat.
Proof.
  revert q. induction d as [|c d IH]; intros q; [intros []|].
  cbn [prefixes]. intros [<- | Hq]; [simpl; lia|].
  apply in_map_iff in Hq as (q' & <- & Hq'). apply IH in Hq'. simpl. lia.
Qed.

Lemma dirname_length (c : string) (q : path) :
  length (dirname (c :: q)) = length q.
Proof.
  unfold dirname. revert c. induction q as [|c' q IH]; intros c;
    [reflexivity|].
  change (removelast (c :: c' :: q)) with (c :: removelast (c' :: q)).
  cbn [length]. f_equal. apply IH.
Qed.

(** Whether a path lies below a regular file depends on its proper
    ancestors only. *)
Lemma under_file_others (w w' : world) (p : path) :
  (forall q, q <> p -> files w' !! q = files w !! q) ->
  under_file w' p = under_file w p.
Proof.
  intros Hoth. unfold under_file.
  assert (Hin : forall q, In q (prefixes (dirname p)) -> q <> p).
  { intros q Hq ->. destruct p as [|c p]; [destruct Hq|].
    apply prefixes_length in Hq.
    rewrite dirname_length in Hq. simpl in Hq. lia. }
  induction (prefixes (dirname p)) as [|q l IH]; [reflexivity|].
  cbn [existsb]. rewrite Hoth by (apply Hin; now left).
  rewrite IH; [reflexivity|]. intros q' Hq'. apply Hin. now right.
Qed.


Lemma writable_same (w w' : world) (p : path) :
  dirs w' = dirs w -> denied w' = denied w ->
  (forall q, q <> p -> files w' !! q = files w !! q) ->
  writable w' p = writable w p.
Proof.
  intros Hd Hden Hoth. unfold writable.
  now rewrite (under_file_others _ _ _ Hoth), !(dir_exists_same_dirs _ _ _ Hd),
    Hden.
Qed.

(** The files a [write_file] leaves. *)
Lemma write_file_files (p : path) (d : pyval) (w : world) :
  files (snd (DataHandler.write_file p d w)) =
    if writable w p then
      match written (if isinstance_bytes d then Mode_wb else Mode_w) d with
      | None => <[p := FText ""]> (files w)
      | Some (c, bs) =>
        if disk_full w then <[p := FBytes (take (room w) bs)]> (files w)
        else <[p := c]> (files w)
      end
    else files w.
Proof.
  pose proof (write_file_run p d w) as H. cbv zeta in H.
  destruct (writable w p); [|now rewrite H].
  destruct (written _ d) as [[c bs]|]; [|now destruct H as [msg ->]].
  destruct H as [_ ->]. now destruct (disk_full w).
Qed.

Lemma read_file_cases (p : path) (is_bytes : bool) (w : world) :
  exists v w',
    DataHandler.read_file p is_bytes w = (Ok v, w') /\
    files w' = files w /\ dirs w' = dirs w /\ heap w' = heap w /\
    match read_value w p is_bytes with
    | Some x =>
      v = x /\
      new_events w w' = [EOpen p (read_mode is_bytes); ERead p]
    | None =>
      v = VNone /\
      exists msg,
        new_events w w' = [EOpen p (read_mode is_bytes); EPrint msg] \/
        new_events w w' = [EOpen p (read_mode is_bytes); ERead p; EPrint msg]
    end.
Proof.
  assert (Hm : is_write_mode (read_mode is_bytes) = false)
    by (destruct is_bytes; reflexivity).
  pose proof (cannot_open_read w p _ Hm) as Ho.
  unfold read_value, read_bytes, read_text, DataHandler.read_file,
    try_except, bind, py_open.
  change (if is_bytes then Mode_rb else Mode_r) with (read_mode is_bytes).
  change (cannot_open (log ?e w) ?x ?m) with (cannot_open w x m).
  destruct (cannot_open w p (read_mode is_bytes)) as [[c m]|].
  - destruct Ho as [Hcant Hc]. cbn [e_class] in Hc.
    assert (Hnone :
      (if under_file w p || dir_exists w p || bool_decide (p ∈ denied w)
       then true else bool_decide (files w !! p = None)) = true).
    { destruct Hcant as [-> | Hf]; [reflexivity|].
      destruct (_ || _); [reflexivity|].
      now apply bool_decide_eq_true_2. }
    destruct (under_file w p || dir_exists w p || bool_decide (p ∈ denied w));
      [|apply bool_decide_eq_true_1 in Hnone; rewrite Hnone];
      destruct Hc as [-> | [-> | [-> | ->]]]; destruct is_bytes; simpl;
      eexists _, _; (split; [reflexivity|]);
      repeat (split; [reflexivity|]); eexists; left; trace_norm;
      reflexivity.
  - destruct Ho as (-> & -> & -> & [x Hx]). simpl. unfold file_read.
    simpl. rewrite ?Hx.
    destruct x as [t|b], is_bytes; simpl; rewrite ?Hx; simpl;
      try destruct (utf8_valid b); simpl;
      eexists _, _; (split; [reflexivity|]); repeat (split; [reflexivity|]);
      first [ trace_norm; reflexivity
            | eexists; right; trace_norm; reflexivity ].
Qed.

(** X1.  [read_file] never raises and never changes the files, the
    directories or the objects.  When the path can be read it returns the
    whole content after one open and one read: the bytes as they are when
    [is_bytes] is set, and otherwise the text they encode in UTF-8 with
    its line ends turned into line feeds.  When it cannot be read the
    result is [None] and exactly one diagnostic is printed. *)
Theorem read_file_contract (p : path) (is_bytes : bool) (w : world) :
  exists v w',
    DataHandler.read_file p is_bytes w = (Ok v, w') /\
    files w' = files w /\ dirs w' = dirs w /\ heap w' = heap w /\
    match read_value w p is_bytes with
    | Some x =>
      v = x /\
      new_events w w' = [EOpen p (read_mode is_bytes); ERead p]
    | None =>
      v = VNone /\
      exists msg,
        new_events w w' = [EOpen p (read_mode is_bytes); EPrint msg] \/
        new_events w w' = [EOpen p (read_mode is_bytes); ERead p; EPrint msg]
    end.
Proof. exact (read_file_cases p is_bytes w). Qed.




(** X3.  [write_file] touches nothing but the file at its path: every
    other file, the directories and the objects are as before, whether the
    write succeeds or not. *)
Theorem write_file_frame (p : path) (d : pyval) (w : world) :
  let w' := snd (DataHandler.write_file p d w) in
  (forall q, q <> p -> files w' !! q = files w !! q) /\
  dirs w' = dirs w /\ heap w' = heap w /\ configData w' = configData w.
Proof. exact (write_file_others p d w). Qed.

(** X4.  There is no rollback.  When the path cannot be opened for
    writing the files are as before.  When it can be opened, what the file
    held is lost at the open: a payload that is neither [str] nor [bytes]
    then leaves the file empty, and a write that the device refuses for
    lack of space leaves the first bytes of the payload, as many as went
    through.  The result is [None] in the three cases. *)
Theorem write_file_failure_modes (p : path) (d : pyval) (w : world) :
  let r := DataHandler.write_file p d w in
  (writable w p = false -> fst r = Ok VNone /\ files (snd r) = files w) /\
  (writable w p = true -> payload d = None ->
   fst r = Ok VNone /\ files (snd r) = <[p := FText ""]> (files w)) /\
  (forall c bs,
     writable w p = true -> disk_full w = true ->
     written (if isinstance_bytes d then Mode_wb else Mode_w) d
       = Some (c, bs) ->
     fst r = Ok VNone /\
     files (snd r) = <[p := FBytes (take (room w) bs)]> (files w)).
Proof.
  cbv zeta. pose proof (write_file_run p d w) as H. cbv zeta in H.
  split; [|split].
  - intros Hw. rewrite Hw in H. now rewrite H.
  - intros Hw Hp. rewrite Hw in H.
    destruct (written _ d) as [[c bs]|].
    + destruct H as [Hc _]. congruence.
    + destruct H as [msg ->]. now split.
  - intros c bs Hw Hfull Hwr. rewrite Hw, Hwr, Hfull in H.
    destruct H as [_ ->]. now split.
Qed.


(** A path below a directory that is missing; an integer written over
    [cfg.yml]; and 8192 bytes sent to a device that takes 4096. *)
Lemma write_file_failure_modes_witness :
  writable w_clean ["missing"; "out.txt"] = false /\
  (writable w_cfg ["cfg.yml"] = true /\ payload (VInt 5) = None /\
   files w_cfg !! ["cfg.yml"] = Some (FText "b: 3")) /\
  (writable w_full ["big.txt"] = true /\ disk_full w_full = true /\
   room w_full = 4096%nat /\
   written Mode_w (VStr long_text)
     = Some (FText long_text, list_byte_of_string long_text)) /\
  files (snd (DataHandler.write_file ["missing"; "out.txt"] (VStr "x")
                w_clean)) = files w_clean /\
  files (snd (DataHandler.write_file ["cfg.yml"] (VInt 5) w_cfg))
    !! ["cfg.yml"] = Some (FText "") /\
  files (snd (DataHandler.write_file ["big.txt"] (VStr long_text) w_full))
    !! ["big.txt"]
    = Some (FBytes (take 4096 (list_byte_of_string long_text))).
Proof.
  assert (H1 : writable w_clean ["missing"; "out.txt"] = false)
    by (vm_compute; reflexivity).
  assert (H2 : writable w_cfg ["cfg.yml"] = true)
    by (vm_compute; reflexivity).
  assert (H3 : writable w_full ["big.txt"] = true)
    by (vm_compute; reflexivity).
  split; [exact H1|].
  split; [split; [exact H2|]; split; [reflexivity|vm_compute; reflexivity]|].
  split; [split; [exact H3|]; repeat split; reflexivity|].
  split; [|split].
  - destruct (write_file_failure_modes ["missing"; "out.txt"] (VStr "x")
                w_clean) as (H & _).
    now destruct (H H1).
  - destruct (write_file_failure_modes ["cfg.yml"] (VInt 5) w_cfg)
      as (_ & H & _).
    destruct (H H2 eq_refl) as (_ & ->). apply lookup_insert_eq.
  - destruct (write_file_failure_modes ["big.txt"] (VStr long_text) w_full)
      as (_ & _ & H).
    destruct (H _ _ H3 eq_refl eq_refl) as (_ & ->).
    apply lookup_insert_eq.
Defined.




(** ** DataHandler: the encoders *)

(** X6.  The encoding wrappers never raise, and their [None] means
    exactly that the library raised: a returned text is never [None]. *)
Theorem serializers_None_iff_raised (lib : codecs) (d : pyval) (w : world) :
  (fst (DataHandler._serialize_json lib d w) = Ok VNone
     <-> exists e, ujson_dumps lib d = Raise e) /\
  (fst (DataHandler._serialize_yaml lib d w) = Ok VNone
     <-> exists e, yaml_dump lib d = Raise e) /\
  (forall e, fst (DataHandler._serialize_json lib d w) <> Raise e) /\
  (forall e, fst (DataHandler._serialize_yaml lib d w) <> Raise e).
Proof.
  destruct (_serialize_json_cases lib d w)
    as [(t & Ht & Hj)|(e & msg & He & Hj)];
  destruct (_serialize_yaml_cases lib d w)
    as [(t' & Ht' & Hy)|(e' & msg' & He' & Hy)];
  rewrite Hj, Hy; cbn [fst]; repeat split;
    try discriminate; try (intros [x Hx]; congruence); eauto.
Qed.

(** ** The load pipeline *)

(** What the hook of a load leaves, in the three cases. *)
Lemma load_tail_base (h : handler) (w1 : world) (v : pyval) :
  klass h = BaseHandler ->
  let r := load_tail v (mk_mstate h w1) in
  absorbed "Unexpected error loading data: " (fst r) (snd r) =
    mk_mstate (set_class_data (CDVal v) h)
      (log (EPrint "Unexpected error loading data: Subclasses must implement on_loaded_file()")
         (log (EHook On_loaded_file) w1)).
Proof.
  destruct h as [k obj j y t cd p]. simpl. intros ->. run. reflexivity.
Qed.

Lemma load_tail_config_record
    (h : handler) (w1 : world) (m : gmap string pyval) :
  klass h = ConfigHandler ->
  let r := load_tail (VDict m) (mk_mstate h w1) in
  absorbed "Unexpected error loading data: " (fst r) (snd r) =
    mk_mstate (set_class_data (CDVal (VDict m)) h)
      (set_heap
         (<[configData w1 :=
              mk_obj (dc_fields (heap w1 !!! configData w1))
                     (m ∪ attrs (heap w1 !!! configData w1))]> (heap w1))
         (log (EHook Update_global) (log (EHook On_loaded_file) w1))).
Proof.
  destruct h as [k obj j y t cd p]. simpl. intros ->. run. reflexivity.
Qed.

Lemma load_tail_config_other (h : handler) (w1 : world) (v : pyval) :
  klass h = ConfigHandler ->
  (forall m, v <> VDict m) ->
  let r := load_tail v (mk_mstate h w1) in
  absorbed "Unexpected error loading data: " (fst r) (snd r) =
    mk_mstate (set_class_data (CDVal v) h)
      (log (EPrint ("Unexpected error loading data: dict.update() argument after ** must be a mapping, not "
                    +:+ type_name v))
         (log (EHook Update_global) (log (EHook On_loaded_file) w1))).
Proof.
  destruct h as [k obj j y t cd p]. simpl. intros -> Hv. run.
  destruct v; try reflexivity. now destruct (Hv m).
Qed.

(** X7.  [load_file] always returns normally and never writes to disk:
    the files and the directories are as before.  In the object store it
    can change only the object [configData] names, and a [BaseHandler]
    changes no object at all. *)
Theorem load_file_frame (lib : codecs) (h : handler) (w : world) :
  let r := load_file lib (mk_mstate h w) in
  fst r = Ok tt /\
  files (env (snd r)) = files w /\ dirs (env (snd r)) = dirs w /\
  (forall l, l <> configData w -> heap (env (snd r)) !! l = heap w !! l) /\
  (klass h = BaseHandler -> heap (env (snd r)) = heap w).
Proof.
  cbv zeta. rewrite load_file_absorbs. cbn [fst snd]. split; [reflexivity|].
  assert (Htail : forall v w1,
     files w1 = files w -> dirs w1 = dirs w -> heap w1 = heap w ->
     configData w1 = configData w ->
     let r := load_tail v (mk_mstate h w1) in
     let w' := env (absorbed "Unexpected error loading data: " (fst r) (snd r)) in
     files w' = files w /\ dirs w' = dirs w /\
     (forall l, l <> configData w -> heap w' !! l = heap w !! l) /\
     (klass h = BaseHandler -> heap w' = heap w)).
  { intros v w1 Hf Hd Hh Hc. cbv zeta. destruct (klass h) eqn:Hk.
    - rewrite (load_tail_base _ _ _ Hk). cbn [env]. simpl. rewrite Hh. tauto.
    - assert (Hv : (exists m, v = VDict m) \/ forall m, v <> VDict m).
      { destruct v; try (right; discriminate). left. eauto. }
      destruct Hv as [[m ->]|Hv].
      + rewrite (load_tail_config_record _ _ _ Hk). cbn [env]. simpl.
        repeat split; try assumption; try discriminate.
        intros l Hl. rewrite Hc, Hh. now apply lookup_insert_ne.
      + rewrite (load_tail_config_other _ _ _ Hk Hv). cbn [env]. simpl.
        rewrite Hh. repeat split; try assumption; try discriminate. }
  destruct h as [k obj j y t cd p].
  unfold load_body, bind, get_self, liftW. simpl.
  destruct (read_text w p) as [s|] eqn:Hs.
  - rewrite (read_file_text _ _ _ Hs). simpl.
    destruct j; [|destruct y; [|destruct t]]; simpl.
    + destruct (_deserialize_json_cases lib (VStr s)
                  (log (ERead p) (log (EOpen p Mode_r) w)))
        as [(v & _ & ->)|(e & msg & _ & ->)]; simpl;
        [destruct (is_None v)|]; simpl; try tauto.
      apply Htail; reflexivity.
    + destruct (_deserialize_yaml_cases lib (VStr s)
                  (log (ERead p) (log (EOpen p Mode_r) w)))
        as [(v & _ & ->)|(e & msg & _ & ->)]; simpl;
        [destruct (is_None v)|]; simpl; try tauto.
      apply Htail; reflexivity.
    + destruct (_deserialize_toml_cases lib (VStr s)
                  (log (ERead p) (log (EOpen p Mode_r) w)))
        as [(v & _ & ->)|(e & msg & _ & ->)]; simpl;
        [destruct (is_None v)|]; simpl; try tauto.
      apply Htail; reflexivity.
    + apply Htail; reflexivity.
  - destruct (read_file_unreadable _ _ Hs) as (msg & w1 & -> & [-> | ->]);
      simpl; tauto.
Qed.

Lemma load_file_frame_witness :
  klass base_raw = BaseHandler /\
  let r := load_file stub_codecs (mk_mstate base_raw w_cfg) in
  fst r = Ok tt /\
  files (env (snd r)) = files w_cfg /\ dirs (env (snd r)) = dirs w_cfg /\
  heap (env (snd r)) = heap w_cfg.
Proof.
  split; [reflexivity|].
  destruct (load_file_frame stub_codecs base_raw w_cfg)
    as (H1 & H2 & H3 & _ & H4).
  exact (conj H1 (conj H2 (conj H3 (H4 eq_refl)))).
Defined.

(** Once the file is read and the decoder returned, [load_file] stops on
    [None] and otherwise assigns and calls the hook. *)
Lemma load_file_decoded
    (lib : codecs) (h : handler) (w : world) (s : string) (v : pyval) :
  read_text w (file_path h) = Some s ->
  decoding lib h s = Some (Ok v) ->
  load_file lib (mk_mstate h w) =
    (Ok tt,
     if is_None v then mk_mstate h (decoded_world h w)
     else let r := load_tail v (mk_mstate h (decoded_world h w)) in
          absorbed "Unexpected error loading data: " (fst r) (snd r)).
Proof.
  intros Hs Hdec. rewrite load_file_absorbs. f_equal.
  destruct h as [k obj j y t cd p]. unfold decoding, decoded_world, decoder in *.
  cbn [serialize_json serialize_yaml serialize_toml file_path] in *.
  unfold load_body, bind, get_self, liftW. simpl.
  rewrite (read_file_text _ _ _ Hs). simpl.
  destruct j; [|destruct y; [|destruct t; [|discriminate]]]; simpl;
    injection Hdec as Hdec.
  - destruct (_deserialize_json_cases lib (VStr s)
                (log (ERead p) (log (EOpen p Mode_r) w)))
      as [(v' & Hv' & ->)|(e & msg & He & _)]; [|congruence].
    rewrite Hdec in Hv'. injection Hv' as <-. simpl.
    destruct (is_None v); reflexivity.
  - destruct (_deserialize_yaml_cases lib (VStr s)
                (log (ERead p) (log (EOpen p Mode_r) w)))
      as [(v' & Hv' & ->)|(e & msg & He & _)]; [|congruence].
    rewrite Hdec in Hv'. injection Hv' as <-. simpl.
    destruct (is_None v); reflexivity.
  - destruct (_deserialize_toml_cases lib (VStr s)
                (log (ERead p) (log (EOpen p Mode_r) w)))
      as [(v' & Hv' & ->)|(e & msg & He & _)]; [|congruence].
    rewrite Hdec in Hv'. injection Hv' as <-. simpl.
    destruct (is_None v); reflexivity.
Qed.

(** X8.  A decoder that returns [None] without raising (the JSON document
    null, an empty YAML document) ends the load in silence: nothing is
    printed, [class_data] and the objects are as before and
    [on_loaded_file] is not entered. *)
Theorem load_file_decoded_None
    (lib : codecs) (h : handler) (w : world) (s : string) :
  read_text w (file_path h) = Some s ->
  decoding lib h s = Some (Ok VNone) ->
  let r := load_file lib (mk_mstate h w) in
  fst r = Ok tt /\ self (snd r) = h /\ heap (env (snd r)) = heap w /\
  new_events w (env (snd r)) =
    [EOpen (file_path h) Mode_r; ERead (file_path h); ECall (decoder h)].
Proof.
  intros Hs Hdec. cbv zeta. rewrite (load_file_decoded _ _ _ _ _ Hs Hdec).
  cbn [is_None fst snd self env]. repeat (split; [reflexivity|]).
  apply new_events_app. unfold decoded_world. simpl.
  rewrite <- !app_assoc. reflexivity.
Qed.

Lemma load_file_decoded_None_witness :
  read_text w_cfg (file_path config_yaml) = Some "b: 3" /\
  decoding null_codecs config_yaml "b: 3" = Some (Ok VNone) /\
  let r := load_file null_codecs (mk_mstate config_yaml w_cfg) in
  fst r = Ok tt /\ self (snd r) = config_yaml /\
  heap (env (snd r)) = heap w_cfg /\
  new_events w_cfg (env (snd r)) =
    [EOpen (file_path config_yaml) Mode_r; ERead (file_path config_yaml);
     ECall (decoder config_yaml)].
Proof.
  split; [vm_compute; reflexivity|]. split; [reflexivity|].
  apply (load_file_decoded_None null_codecs config_yaml w_cfg "b: 3");
    [vm_compute; reflexivity | reflexivity].
Defined.

(** The load of a [ConfigHandler] whose file decodes to a record. *)
Lemma load_file_config_record
    (lib : codecs) (h : handler) (w : world) (s : string)
    (m : gmap string pyval) :
  klass h = ConfigHandler ->
  read_text w (file_path h) = Some s ->
  decoding lib h s = Some (Ok (VDict m)) ->
  let r := load_file lib (mk_mstate h w) in
  fst r = Ok tt /\
  self (snd r) = set_class_data (CDVal (VDict m)) h /\
  attrs (heap (env (snd r)) !!! configData w)
    = m ∪ attrs (heap w !!! configData w) /\
  new_events w (env (snd r)) =
    [EOpen (file_path h) Mode_r; ERead (file_path h); ECall (decoder h);
     EHook On_loaded_file; EHook Update_global].
Proof.
  intros Hk Hs Hdec. cbv zeta. rewrite (load_file_decoded _ _ _ _ _ Hs Hdec).
  cbn [is_None]. cbv zeta. rewrite (load_tail_config_record _ _ _ Hk).
  cbn [fst snd self env]. repeat (split; [reflexivity|]). split.
  - unfold decoded_world. simpl. now rewrite lookup_total_insert_eq.
  - apply new_events_app. unfold decoded_world. simpl.
    rewrite <- !app_assoc. reflexivity.
Qed.

(** X9.  A [ConfigHandler] whose file can be read and decodes to a record
    [m] returns normally, keeps [m] as its [class_data], merges [m] into
    the attributes of the singleton and prints nothing: it reads, decodes,
    enters [on_loaded_file] and from there [update_global]. *)
Theorem ConfigHandler_load_merges
    (lib : codecs) (h : handler) (w : world) (s : string)
    (m : gmap string pyval) :
  klass h = ConfigHandler ->
  read_text w (file_path h) = Some s ->
  decoding lib h s = Some (Ok (VDict m)) ->
  let r := load_file lib (mk_mstate h w) in
  fst r = Ok tt /\
  self (snd r) = set_class_data (CDVal (VDict m)) h /\
  attrs (heap (env (snd r)) !!! configData w)
    = m ∪ attrs (heap w !!! configData w) /\
  new_events w (env (snd r)) =
    [EOpen (file_path h) Mode_r; ERead (file_path h); ECall (decoder h);
     EHook On_loaded_file; EHook Update_global].
Proof. exact (load_file_config_record lib h w s m). Qed.

Lemma ConfigHandler_load_merges_witness :
  klass config_yaml = ConfigHandler /\
  read_text w_cfg (file_path config_yaml) = Some "b: 3" /\
  decoding stub_codecs config_yaml "b: 3"
    = Some (Ok (VDict {[ "b" := VInt 3; "c" := VInt 4 ]})) /\
  let r := load_file stub_codecs (mk_mstate config_yaml w_cfg) in
  fst r = Ok tt /\
  self (snd r)
    = set_class_data (CDVal (VDict {[ "b" := VInt 3; "c" := VInt 4 ]}))
        config_yaml /\
  attrs (heap (env (snd r)) !!! configData w_cfg)
    = {[ "b" := VInt 3; "c" := VInt 4 ]}
      ∪ attrs (heap w_cfg !!! configData w_cfg) /\
  new_events w_cfg (env (snd r)) =
    [EOpen (file_path config_yaml) Mode_r; ERead (file_path config_yaml);
     ECall (decoder config_yaml); EHook On_loaded_file; EHook Update_global].
Proof.
  split; [reflexivity|]. split; [vm_compute; reflexivity|].
  split; [reflexivity|].
  apply (ConfigHandler_load_merges stub_codecs config_yaml w_cfg "b: 3"
           {[ "b" := VInt 3; "c" := VInt 4 ]});
    [reflexivity | vm_compute; reflexivity | reflexivity].
Defined.

(** X10.  When the document decodes to something that is neither [None]
    nor a record (a list, a number, a string), a [ConfigHandler] has
    already replaced its [class_data] by that value when [update_global]
    fails on it: the objects are untouched, the [TypeError], whose text
    names the type of the value, is printed, the call returns normally, and
    the instance is left holding the value. *)
Theorem ConfigHandler_load_not_a_record
    (lib : codecs) (h : handler) (w : world) (s : string) (v : pyval) :
  klass h = ConfigHandler ->
  read_text w (file_path h) = Some s ->
  decoding lib h s = Some (Ok v) ->
  v <> VNone -> (forall m, v <> VDict m) ->
  let r := load_file lib (mk_mstate h w) in
  fst r = Ok tt /\
  class_data (self (snd r)) = CDVal v /\
  heap (env (snd r)) = heap w /\
  new_events w (env (snd r)) =
    [EOpen (file_path h) Mode_r; ERead (file_path h); ECall (decoder h);
     EHook On_loaded_file; EHook Update_global;
     EPrint ("Unexpected error loading data: dict.update() argument after ** must be a mapping, not "
             +:+ type_name v)].
Proof.
  intros Hk Hs Hdec Hnn Hnd. cbv zeta.
  rewrite (load_file_decoded _ _ _ _ _ Hs Hdec).
  assert (Hn : is_None v = false)
    by (destruct v; first [reflexivity | now destruct Hnn]).
  rewrite Hn. cbv zeta. rewrite (load_tail_config_other _ _ _ Hk Hnd).
  cbn [fst snd self env]. repeat (split; [reflexivity|]).
  apply new_events_app. unfold decoded_world. simpl.
  rewrite <- !app_assoc. reflexivity.
Qed.

Lemma ConfigHandler_load_not_a_record_witness :
  klass config_yaml = ConfigHandler /\
  read_text w_cfg (file_path config_yaml) = Some "b: 3" /\
  decoding list_codecs config_yaml "b: 3" = Some (Ok (VList [VInt 1])) /\
  VList [VInt 1] <> VNone /\ (forall m, VList [VInt 1] <> VDict m) /\
  let r := load_file list_codecs (mk_mstate config_yaml w_cfg) in
  fst r = Ok tt /\
  class_data (self (snd r)) = CDVal (VList [VInt 1]) /\
  heap (env (snd r)) = heap w_cfg /\
  new_events w_cfg (env (snd r)) =
    [EOpen (file_path config_yaml) Mode_r; ERead (file_path config_yaml);
     ECall (decoder config_yaml); EHook On_loaded_file; EHook Update_global;
     EPrint "Unexpected error loading data: dict.update() argument after ** must be a mapping, not list"].
Proof.
  split; [reflexivity|]. split; [vm_compute; reflexivity|].
  split; [reflexivity|]. split; [discriminate|]. split; [discriminate|].
  apply (ConfigHandler_load_not_a_record list_codecs config_yaml w_cfg
           "b: 3" (VList [VInt 1]));
    [reflexivity | vm_compute; reflexivity | reflexivity
    | discriminate | discriminate].
Defined.

(** ** The save pipeline *)

(** The write and the hook of a save leave everything but the bound file
    and the log as it was. *)
Lemma save_tail_frame (h : handler) (w1 : world) (d : pyval) :
  let r := save_tail (Some d) (mk_mstate h w1) in
  let st := absorbed "Unexpected error saving data: " (fst r) (snd r) in
  self st = h /\
  (forall q, q <> file_path h -> files (env st) !! q = files w1 !! q) /\
  denied (env st) = denied w1 /\ disk_full (env st) = disk_full w1 /\
  heap (env st) = heap w1 /\ configData (env st) = configData w1.
Proof.
  cbv zeta.
  assert (Hfr := conj (write_file_others (file_path h) d w1)
                      (write_file_platform (file_path h) d w1)).
  cbv zeta in Hfr.
  destruct (write_file_cases (file_path h) d w1)
    as [w' [(c & _ & _ & _ & Hrun & _)|(msg & _ & Hrun & _)]];
    rewrite Hrun in Hfr; cbn [snd] in Hfr;
    unfold save_tail, bind, get_self, read_local, ret, liftW; simpl;
    rewrite Hrun; simpl.
  - rewrite on_saved_file_run. destruct (klass h); simpl; tauto.
  - tauto.
Qed.

(** Everything but the bound file and the log is after a [save_file] as
    it was before; the permissions and the answer of the device are no
    state of the program. *)
Lemma save_file_others (lib : codecs) (h : handler) (w : world) :
  let r := save_file lib (mk_mstate h w) in
  fst r = Ok tt /\ self (snd r) = h /\
  (forall q, q <> file_path h ->
     files (env (snd r)) !! q = files w !! q) /\
  dirs (env (snd r)) = dirs w /\ denied (env (snd r)) = denied w /\
  disk_full (env (snd r)) = disk_full w /\
  heap (env (snd r)) = heap w /\ configData (env (snd r)) = configData w.
Proof.
  cbv zeta. destruct (save_file_cases lib h w) as (Hok & Hself & Hd & Hh & _).
  split; [exact Hok|]. split; [exact Hself|].
  cut ((forall q, q <> file_path h ->
          files (env (snd (save_file lib (mk_mstate h w)))) !! q = files w !! q)
       /\ denied (env (snd (save_file lib (mk_mstate h w)))) = denied w
       /\ disk_full (env (snd (save_file lib (mk_mstate h w)))) = disk_full w
       /\ configData (env (snd (save_file lib (mk_mstate h w)))) = configData w);
    [tauto|].
  clear Hok Hself Hd Hh. rewrite save_file_absorbs. cbn [snd].
  destruct h as [k obj j y t cd p].
  unfold save_body, bind, get_self, get_class_data, liftW. simpl.
  destruct j; [|destruct y]; simpl.
  - destruct (_serialize_json_cases lib (cdata_val w cd) w)
      as [(s & _ & ->)|(e & msg & _ & ->)]; simpl; [|tauto].
    destruct (save_tail_frame (mk_handler k obj true y t cd p)
                (log (ECall Ujson_dumps) w) (VStr s)) as (_ & H1 & H2 & H3 & _ & H4).
    tauto.
  - destruct (_serialize_yaml_cases lib (cdata_val w cd) w)
      as [(s & _ & ->)|(e & msg & _ & ->)]; simpl; [|tauto].
    destruct (save_tail_frame (mk_handler k obj false true t cd p)
                (log (ECall Yaml_dump) w) (VStr s)) as (_ & H1 & H2 & H3 & _ & H4).
    tauto.
  - run. tauto.
Qed.

(** X11.  [save_file] always returns normally and changes nothing in
    memory: the instance and every object are as before.  On disk it can
    change only the file at the bound path; every other file and the
    directories are as before. *)
Theorem save_file_frame (lib : codecs) (h : handler) (w : world) :
  let r := save_file lib (mk_mstate h w) in
  fst r = Ok tt /\ self (snd r) = h /\
  (forall q, q <> file_path h ->
     files (env (snd r)) !! q = files w !! q) /\
  dirs (env (snd r)) = dirs w /\
  heap (env (snd r)) = heap w /\ configData (env (snd r)) = configData w.
Proof.
  cbv zeta. pose proof (save_file_others lib h w) as H. cbv zeta in H. tauto.
Qed.

(** With a text encoded, the files after [save_file] are the files after
    the [write_file] it makes. *)
Lemma save_file_files (lib : codecs) (h : handler) (w : world) (t : string) :
  encoded lib h w = Some t ->
  files (env (snd (save_file lib (mk_mstate h w)))) =
    files (snd (DataHandler.write_file (file_path h) (VStr t)
                  (log (ECall (encoder h)) w))).
Proof.
  intros Henc. rewrite save_file_absorbs. cbn [snd].
  destruct h as [k obj j y u cd p]. unfold encoded, encoder in *.
  cbn [serialize_json serialize_yaml class_data file_path] in *.
  assert (Htail : forall w1,
    let r := save_tail (Some (VStr t)) (mk_mstate (mk_handler k obj j y u cd p) w1) in
    files (env (absorbed "Unexpected error saving data: " (fst r) (snd r)))
    = files (snd (DataHandler.write_file p (VStr t) w1))).
  { intros w1. cbv zeta.
    destruct (write_file_cases p (VStr t) w1)
      as [w' [(c & _ & _ & _ & Hrun & _)|(msg & _ & Hrun & _)]];
      unfold save_tail, bind, get_self, read_local, ret, liftW; simpl;
      rewrite Hrun; simpl; [|reflexivity].
    rewrite on_saved_file_run. now destruct k. }
  unfold save_body, bind, get_self, get_class_data, liftW. simpl.
  destruct j; [|destruct y; [|discriminate]]; simpl.
  - destruct (_serialize_json_cases lib (cdata_val w cd) w)
      as [(s & Hs & ->)|(e & msg & He & _)]; [|rewrite He in Henc; discriminate].
    rewrite Hs in Henc. injection Henc as ->. apply Htail.
  - destruct (_serialize_yaml_cases lib (cdata_val w cd) w)
      as [(s & Hs & ->)|(e & msg & He & _)]; [|rewrite He in Henc; discriminate].
    rewrite Hs in Henc. injection Henc as ->. apply Htail.
Qed.

(** X12.  A save that fails before the file is opened leaves the files as
    they were: so it is when the encoder fails and when the path cannot be
    opened for writing.  A save that fails after the open, the device
    refusing the text for lack of space, leaves in the bound file the first
    bytes of the text, as many as went through: what the file held before
    is lost.  In none of these cases is [on_saved_file] entered. *)
Theorem save_file_failure_effects (lib : codecs) (h : handler) (w : world) :
  let w' := env (snd (save_file lib (mk_mstate h w))) in
  (encoded lib h w = None -> files w' = files w) /\
  (writable w (file_path h) = false -> files w' = files w) /\
  (forall t, encoded lib h w = Some t ->
     writable w (file_path h) = true -> disk_full w = true ->
     files w' =
       <[file_path h := FBytes (take (room w) (list_byte_of_string t))]>
         (files w)) /\
  (encoded lib h w = None \/ writable w (file_path h) = false
   \/ disk_full w = true ->
   ~ In (EHook On_saved_file) (new_events w w')).
Proof.
  cbv zeta. destruct (save_file_cases lib h w) as (_ & _ & _ & _ & Hout).
  split; [|split; [|split]].
  - intros Hn.
    destruct Hout as [_ _ Hf _ | msg _ Hf _ | t msg He _ _ _ | t He _ _ _ _];
      congruence.
  - intros Hw. destruct (encoded lib h w) as [t|] eqn:Henc.
    + rewrite (save_file_files _ _ _ _ Henc), write_file_files.
      change (writable (log ?e w) ?x) with (writable w x).
      now rewrite Hw.
    + destruct Hout as [_ _ Hf _ | msg _ Hf _ | t msg He _ _ _ | t He _ _ _ _];
        congruence.
  - intros t Henc Hw Hfull.
    rewrite (save_file_files _ _ _ _ Henc), write_file_files.
    change (writable (log ?e w) ?x) with (writable w x).
    rewrite Hw. cbn [isinstance_bytes written is_binary_mode]. 
    change (disk_full (log ?e w)) with (disk_full w). now rewrite Hfull.
  - intros Hbad.
    destruct Hout as [_ _ _ -> | msg _ _ -> | t msg _ _ _ -> | t He Hw Hfull _ _];
      simpl; try (intuition discriminate).
    destruct Hbad as [Hbad|[Hbad|Hbad]]; congruence.
Qed.

(** The YAML text is 8192 bytes long and the device takes 4096: the file
    is left with the first 4096 of them. *)
Lemma save_file_failure_effects_witness :
  encoded long_codecs config_yaml w_full = Some long_text /\
  writable w_full (file_path config_yaml) = true /\
  disk_full w_full = true /\ room w_full = 4096%nat /\
  let w' := env (snd (save_file long_codecs (mk_mstate config_yaml w_full))) in
  files w' !! file_path config_yaml
    = Some (FBytes (take 4096 (list_byte_of_string long_text))) /\
  ~ In (EHook On_saved_file) (new_events w_full w').
Proof.
  assert (H1 : encoded long_codecs config_yaml w_full = Some long_text)
    by reflexivity.
  assert (H2 : writable w_full (file_path config_yaml) = true)
    by (vm_compute; reflexivity).
  split; [exact H1|]. split; [exact H2|]. split; [reflexivity|].
  split; [reflexivity|].
  destruct (save_file_failure_effects long_codecs config_yaml w_full)
    as (_ & _ & Hfull & Hhook).
  split.
  - rewrite (Hfull long_text H1 H2 eq_refl). apply lookup_insert_eq.
  - apply Hhook. right. right. reflexivity.
Defined.

(** A save that goes through: the world after it, seen from the next
    operation. *)
Lemma save_file_written
    (lib : codecs) (h : handler) (w : world) (t : string) :
  encoded lib h w = Some t ->
  writable w (file_path h) = true -> disk_full w = false ->
  let w1 := env (snd (save_file lib (mk_mstate h w))) in
  files w1 = <[file_path h := FText t]> (files w) /\
  writable w1 (file_path h) = true /\ disk_full w1 = false /\
  read_text w1 (file_path h) = Some (universal_newlines t) /\
  heap w1 = heap w /\ configData w1 = configData w /\
  encoded lib h w1 = Some t.
Proof.
  intros Henc Hw Hfull. cbv zeta.
  destruct (save_file_others lib h w)
    as (_ & _ & Hoth & Hd & Hden & Hdf & Hh & Hc).
  destruct (save_file_cases lib h w) as (_ & _ & _ & _ & Hout).
  assert (Hf : files (env (snd (save_file lib (mk_mstate h w))))
               = <[file_path h := FText t]> (files w)).
  { destruct Hout
      as [Hj Hy _ _ | msg Hn _ _ | t' msg _ Hbad _ _ | t' Henc' _ _ Hf _].
    - unfold encoded in Henc. rewrite Hj, Hy in Henc. discriminate.
    - congruence.
    - destruct Hbad; congruence.
    - congruence. }
  assert (Hw1 : writable (env (snd (save_file lib (mk_mstate h w))))
                  (file_path h) = true).
  { now rewrite (writable_same _ _ _ Hd Hden Hoth). }
  repeat split; try assumption.
  - congruence.
  - unfold read_text. unfold writable in Hw1.
    apply andb_prop in Hw1 as [Hw1 _]. apply andb_prop in Hw1 as [Hw1 Hdn].
    apply andb_prop in Hw1 as [Hu Hnd].
    apply negb_true_iff in Hu, Hnd, Hdn. rewrite Hu, Hnd, Hdn, Hf. simpl.
    now rewrite lookup_insert_eq.
  - unfold encoded, cdata_val in *. now rewrite Hh.
Qed.

(** X13.  Saving twice in a row is saving once: when a save goes through,
    the bound file holds the encoded text, and a second save of the same
    instance leaves the files exactly as the first one did. *)
Theorem save_file_twice
    (lib : codecs) (h : handler) (w : world) (t : string) :
  encoded lib h w = Some t ->
  writable w (file_path h) = true -> disk_full w = false ->
  let w1 := env (snd (save_file lib (mk_mstate h w))) in
  let w2 := env (snd (save_file lib (mk_mstate h w1))) in
  files w1 !! file_path h = Some (FText t) /\ files w2 = files w1.
Proof.
  intros Henc Hw Hfull. cbv zeta.
  destruct (save_file_written lib h w t Henc Hw Hfull)
    as (Hf & Hw1 & Hfull1 & _ & _ & _ & Henc1).
  destruct (save_file_written lib h _ t Henc1 Hw1 Hfull1) as (Hf2 & _).
  split.
  - rewrite Hf. apply lookup_insert_eq.
  - rewrite Hf2, Hf. apply insert_insert_eq.
Qed.

Lemma save_file_twice_witness :
  encoded stub_codecs config_yaml w_clean = Some "yaml-text" /\
  writable w_clean (file_path config_yaml) = true /\
  disk_full w_clean = false /\
  let w1 := env (snd (save_file stub_codecs (mk_mstate config_yaml w_clean))) in
  let w2 := env (snd (save_file stub_codecs (mk_mstate config_yaml w1))) in
  files w1 !! file_path config_yaml = Some (FText "yaml-text") /\
  files w2 = files w1.
Proof.
  split; [reflexivity|]. split; [vm_compute; reflexivity|].
  split; [reflexivity|].
  apply (save_file_twice stub_codecs config_yaml w_clean "yaml-text");
    [reflexivity | vm_compute; reflexivity | reflexivity].
Defined.



(** X15.  A save after a load writes back what was loaded, not what the
    singleton then holds: after a [ConfigHandler] has loaded the record
    [m], the attributes of the singleton are the merge of [m] into the
    earlier ones, while the file the next save writes is the encoding of
    [m] alone. *)
Theorem load_then_save
    (lib : codecs) (h : handler) (w : world) (s t : string)
    (m : gmap string pyval) :
  klass h = ConfigHandler ->
  read_text w (file_path h) = Some s ->
  decoding lib h s = Some (Ok (VDict m)) ->
  encoded lib (set_class_data (CDVal (VDict m)) h) w = Some t ->
  writable w (file_path h) = true -> disk_full w = false ->
  let r1 := load_file lib (mk_mstate h w) in
  let r2 := save_file lib (snd r1) in
  attrs (heap (env (snd r2)) !!! configData w)
    = m ∪ attrs (heap w !!! configData w) /\
  files (env (snd r2)) !! file_path h = Some (FText t).
Proof.
  intros Hk Hs Hdec Henc Hw Hfull. cbv zeta.
  rewrite (load_file_decoded _ _ _ _ _ Hs Hdec). cbn [is_None snd]. cbv zeta.
  rewrite (load_tail_config_record _ _ _ Hk).
  set (h1 := set_class_data (CDVal (VDict m)) h).
  set (w1 := set_heap _ _).
  assert (Hp : file_path h1 = file_path h) by reflexivity.
  assert (Henc1 : encoded lib h1 w1 = Some t) by exact Henc.
  assert (Hw1 : writable w1 (file_path h1) = true) by exact Hw.
  assert (Hf1 : disk_full w1 = false) by exact Hfull.
  destruct (save_file_written lib h1 w1 t Henc1 Hw1 Hf1)
    as (Hf & _ & _ & _ & Hh & _).
  split.
  - rewrite Hh. subst w1. unfold decoded_world. simpl.
    now rewrite lookup_total_insert_eq.
  - rewrite Hf, Hp. apply lookup_insert_eq.
Qed.

Lemma load_then_save_witness :
  klass config_yaml = ConfigHandler /\
  read_text w_cfg (file_path config_yaml) = Some "b: 3" /\
  decoding stub_codecs config_yaml "b: 3" = Some (Ok (VDict {[ "b" := VInt 3; "c" := VInt 4 ]})) /\
  encoded stub_codecs (set_class_data (CDVal (VDict {[ "b" := VInt 3; "c" := VInt 4 ]})) config_yaml) w_cfg
    = Some "yaml-text" /\
  writable w_cfg (file_path config_yaml) = true /\
  disk_full w_cfg = false /\
  let r1 := load_file stub_codecs (mk_mstate config_yaml w_cfg) in
  let r2 := save_file stub_codecs (snd r1) in
  attrs (heap (env (snd r2)) !!! configData w_cfg)
    = {[ "b" := VInt 3; "c" := VInt 4 ]}
      ∪ attrs (heap w_cfg !!! configData w_cfg) /\
  files (env (snd r2)) !! file_path config_yaml = Some (FText "yaml-text").
Proof.
  split; [reflexivity|]. split; [vm_compute; reflexivity|].
  split; [reflexivity|]. split; [reflexivity|].
  split; [vm_compute; reflexivity|]. split; [reflexivity|].
  apply (load_then_save stub_codecs config_yaml w_cfg "b: 3" "yaml-text" {[ "b" := VInt 3; "c" := VInt 4 ]});
    [reflexivity | vm_compute; reflexivity | reflexivity | reflexivity
    | vm_compute; reflexivity | reflexivity].
Defined.

(** ** Construction and the singleton *)

(** [dataclasses.asdict] keeps the declared fields and nothing else. *)
Lemma asdict_lookup (a : gmap string pyval) (fs : list string)
    (m : gmap string pyval) :
  asdict a fs = Some m ->
  forall k, m !! k = if bool_decide (k ∈ fs) then a !! k else None.
Proof.
  revert m. induction fs as [|f fs IH]; simpl; intros m.
  - intros [= <-] k. now rewrite lookup_empty.
  - destruct (a !! f) as [v|] eqn:Hf; [|discriminate].
    destruct (asdict a fs) as [m'|]; [|discriminate].
    intros [= <-] k. rewrite lookup_insert. specialize (IH m' eq_refl k).
    destruct (decide (f = k)) as [<-|Hne].
    + rewrite bool_decide_eq_true_2 by (apply elem_of_cons; now left).
      now rewrite Hf.
    + rewrite IH. destruct (bool_decide (k ∈ fs)) eqn:Hin.
      * apply bool_decide_eq_true in Hin.
        rewrite bool_decide_eq_true_2; [reflexivity|].
        apply elem_of_cons. now right.
      * apply bool_decide_eq_false in Hin.
        rewrite bool_decide_eq_false_2; [reflexivity|].
        intros [Heq|Hin']%elem_of_cons; congruence.
Qed.

(** X16.  What [class_data] is after construction depends on the object.
    For a plain object it is the object's own [__dict__]: in every later
    state it reads the attributes the object has then.  For a dataclass
    instance it is a copy made once: the declared fields with the values
    they had at construction, the same in every later state, whatever
    happens to the object. *)
Theorem BaseHandler_init_class_data k obj p j y t w h w1 :
  BaseHandler_init k obj p j y t w = (Ok h, w1) ->
  match dc_fields (heap w !!! obj) with
  | None =>
    forall w', cdata_val w' (class_data h) = VDict (attrs (heap w' !!! obj))
  | Some fs =>
    exists m,
      (forall w', cdata_val w' (class_data h) = VDict m) /\
      (forall f, m !! f = if bool_decide (f ∈ fs)
                          then attrs (heap w !!! obj) !! f else None)
  end.
Proof.
  unfold BaseHandler_init, bind, ret. cbv zeta.
  destruct (dc_fields (heap w !!! obj)) as [fs|].
  - destruct (asdict (attrs (heap w !!! obj)) fs) as [m|] eqn:Ha; [|discriminate].
    match goal with
    | |- context [let (_, _) := ?X in _] => destruct X as [[u|e] w2]
    end; [|discriminate].
    intros [= <- <-]. exists m. split; [reflexivity|].
    now apply asdict_lookup.
  - match goal with
    | |- context [let (_, _) := ?X in _] => destruct X as [[u|e] w2]
    end; [|discriminate].
    intros [= <- <-]. reflexivity.
Qed.

Lemma BaseHandler_init_class_data_witness :
  BaseHandler_init ConfigHandler 1%nat ["cfg.yml"] false true false w_clean
    = (Ok config_yaml, w_clean) /\
  dc_fields (heap w_clean !!! 1%nat) = Some ["b"; "c"] /\
  exists m,
    (forall w', cdata_val w' (class_data config_yaml) = VDict m) /\
    (forall f, m !! f = if bool_decide (f ∈ ["b"; "c"])
                        then attrs (heap w_clean !!! 1%nat) !! f else None).
Proof.
  assert (H : BaseHandler_init ConfigHandler 1%nat ["cfg.yml"] false true
                false w_clean = (Ok config_yaml, w_clean))
    by (vm_compute; reflexivity).
  assert (Hdc : dc_fields (heap w_clean !!! 1%nat) = Some ["b"; "c"])
    by (vm_compute; reflexivity).
  split; [exact H|]. split; [exact Hdc|].
  exact (BaseHandler_init_class_data ConfigHandler 1%nat ["cfg.yml"]
           false true false w_clean config_yaml w_clean H).
Defined.

Lemma makedirs_effect (d : path) (w w1 : world) (u : unit) :
  makedirs d w = (Ok u, w1) ->
  (forall q, In q (prefixes d) -> dir_exists w1 q = true) /\
  (forall q, dir_exists w q = true -> dir_exists w1 q = true) /\
  files w1 = files w /\ heap w1 = heap w /\
  exists w2, makedirs d w1 = (Ok tt, w2) /\ dirs w2 = dirs w1 /\
             files w2 = files w1.
Proof.
  unfold makedirs, under_file. cbn [files log].
  destruct (existsb _ (prefixes (dirname d))) eqn:Hex; [discriminate|].
  destruct (bool_decide (is_Some (files w !! d))) eqn:Hf; [discriminate|].
  intros [= _ <-]. cbn [files log set_dirs dirs heap]. rewrite Hex, Hf.
  split; [|split; [|split; [reflexivity|split; [reflexivity|]]]].
  - intros q Hq. unfold dir_exists. cbn [dirs].
    apply bool_decide_eq_true_2. right. right.
    now apply elem_of_union_l, elem_of_list_to_set, list_elem_of_In.
  - intros q. unfold dir_exists. cbn [dirs].
    rewrite !bool_decide_eq_true. intros [->|[->|Hq]]; [now left|tauto|].
    right. right. now apply elem_of_union_r.
  - eexists. split; [reflexivity|]. split; [|reflexivity].
    cbn [dirs]. now rewrite (assoc_L (∪)), (idemp_L (∪)).
Qed.

(** X17.  A successful construction leaves every ancestor directory of
    the path in place, removes no directory and touches no file; and since
    [os.makedirs] is called with [exist_ok=True], constructing again in the
    state reached succeeds, gives the same instance and changes neither
    the directories nor the files. *)
Theorem BaseHandler_init_directories k obj p j y t w h w1 :
  BaseHandler_init k obj p j y t w = (Ok h, w1) ->
  (forall d, In d (prefixes (dirname p)) -> dir_exists w1 d = true) /\
  (forall d, dir_exists w d = true -> dir_exists w1 d = true) /\
  files w1 = files w /\
  exists w2,
    BaseHandler_init k obj p j y t w1 = (Ok h, w2) /\
    dirs w2 = dirs w1 /\ files w2 = files w1.
Proof.
  intros Hinit. pose proof Hinit as Hok.
  apply BaseHandler_init_ok in Hok as (_ & _ & _ & _ & _ & _ & Hh & _).
  revert Hinit. unfold BaseHandler_init, bind, ret. cbv zeta. rewrite Hh.
  destruct (dc_fields (heap w !!! obj)) as [fs|];
    [destruct (asdict (attrs (heap w !!! obj)) fs) as [m|]; [|discriminate]|];
    (destruct (dirname p) as [|c d] eqn:Hd;
     [ intros [= <- <-]; repeat split; try (intros ? []); eauto
     | destruct (makedirs (c :: d) w) as [[[]|e] w'] eqn:Hmk; [|discriminate];
       intros [= <- <-];
       destruct (makedirs_effect _ _ _ _ Hmk)
         as (H1 & H2 & H3 & _ & w2 & Hmk2 & H4 & H5);
       repeat (split; [assumption|]);
       exists w2; rewrite Hmk2; repeat split; assumption ]).
Qed.

Lemma BaseHandler_init_directories_witness :
  BaseHandler_init ConfigHandler 0%nat ["out"; "cfg.yml"] false true false
    w_clean = (Ok config_out, w_out) /\
  (forall d, In d (prefixes (dirname ["out"; "cfg.yml"])) ->
             dir_exists w_out d = true) /\
  (forall d, dir_exists w_clean d = true -> dir_exists w_out d = true) /\
  files w_out = files w_clean /\
  exists w2,
    BaseHandler_init ConfigHandler 0%nat ["out"; "cfg.yml"] false true false
      w_out = (Ok config_out, w2) /\
    dirs w2 = dirs w_out /\ files w2 = files w_out.
Proof.
  assert (H : BaseHandler_init ConfigHandler 0%nat ["out"; "cfg.yml"] false
                true false w_clean = (Ok config_out, w_out))
    by (vm_compute; reflexivity).
  split; [exact H|].
  exact (BaseHandler_init_directories _ _ _ _ _ _ _ _ _ H).
Defined.

(** X18.  Besides its own parameters [file_path] and [config_obj], which
    Python binds and never puts into the dictionary of the remaining
    keywords, [ConfigHandler.__init__] accepts the keywords
    [serialize_json] and [serialize_toml] only.  With any other keyword
    left, and so with [serialize_yaml], which the constructor passes
    itself, it raises [TypeError] before anything is done; no directory is
    created. *)
Theorem ConfigHandler_init_rejects p cfg (kwargs : gmap string bool) w k :
  kwargs !! "file_path" = None -> kwargs !! "config_obj" = None ->
  is_Some (kwargs !! k) -> k <> "serialize_json" -> k <> "serialize_toml" ->
  exists msg,
    ConfigHandler_init p cfg kwargs w = (Raise (mk_exn TypeError msg), w).
Proof.
  intros _ _ Hk Hj Ht. unfold ConfigHandler_init.
  destruct (bool_decide (is_Some (kwargs !! "serialize_yaml"))); [eauto|].
  destruct (bool_decide (_ ∨ _)); [eauto|].
  destruct (bool_decide (_ ⊆ _)) eqn:Hsub; [|eauto].
  apply bool_decide_eq_true in Hsub. exfalso.
  apply elem_of_dom in Hk. apply Hsub in Hk.
  apply elem_of_union in Hk as [Hk|Hk]; apply elem_of_singleton in Hk;
    congruence.
Qed.

(** [ConfigHandler("out/cfg.yml", serialize_yaml=False)] is refused and
    [out/] is not created. *)
Lemma ConfigHandler_init_rejects_witness :
  ({[ "serialize_yaml" := false ]} : gmap string bool) !! "file_path"
    = None /\
  ({[ "serialize_yaml" := false ]} : gmap string bool) !! "config_obj"
    = None /\
  is_Some (({[ "serialize_yaml" := false ]} : gmap string bool)
             !! "serialize_yaml") /\
  "serialize_yaml" <> "serialize_json" /\
  "serialize_yaml" <> "serialize_toml" /\
  exists msg,
    ConfigHandler_init ["out"; "cfg.yml"] None
      {[ "serialize_yaml" := false ]} w_clean
    = (Raise (mk_exn TypeError msg), w_clean).
Proof.
  assert (F1 : ({[ "serialize_yaml" := false ]} : gmap string bool)
                 !! "file_path" = None) by (vm_compute; reflexivity).
  assert (F2 : ({[ "serialize_yaml" := false ]} : gmap string bool)
                 !! "config_obj" = None) by (vm_compute; reflexivity).
  assert (H1 : is_Some (({[ "serialize_yaml" := false ]} : gmap string bool)
                          !! "serialize_yaml"))
    by (exists false; vm_compute; reflexivity).
  assert (H2 : "serialize_yaml" <> "serialize_json") by discriminate.
  assert (H3 : "serialize_yaml" <> "serialize_toml") by discriminate.
  split; [exact F1|]. split; [exact F2|].
  split; [exact H1|]. split; [exact H2|]. split; [exact H3|].
  exact (ConfigHandler_init_rejects ["out"; "cfg.yml"] None
           {[ "serialize_yaml" := false ]} w_clean "serialize_yaml"
           F1 F2 H1 H2 H3).
Defined.

(** X19.  [update_global] is idempotent: with a record in [class_data],
    calling it a second time returns normally and leaves every object as
    the first call left it. *)
Theorem update_global_idempotent
    (h : handler) (w : world) (m : gmap string pyval) :
  klass h = ConfigHandler ->
  cdata_val w (class_data h) = VDict m ->
  let st1 := snd (update_global (mk_mstate h w)) in
  let r2 := update_global st1 in
  fst r2 = Ok tt /\ heap (env (snd r2)) = heap (env st1).
Proof.
  intros Hk Hm. cbv zeta. rewrite (update_global_run _ _ _ Hk Hm). cbn [snd].
  set (a := attrs (heap w !!! configData w)).
  set (w1 := set_heap _ _).
  assert (Hm1 : exists m1, cdata_val w1 (class_data h) = VDict m1 /\
                           m1 ∪ (m ∪ a) = m ∪ a).
  { destruct (class_data h) as [l|v]; simpl in *.
    - injection Hm as <-. eexists. split; [reflexivity|].
      destruct (decide (l = configData w)) as [->|Hne].
      + rewrite lookup_total_insert_eq. simpl. fold a.
        now rewrite !(idemp_L (∪) a).
      + rewrite lookup_total_insert_ne by congruence.
        now rewrite (assoc_L (∪)), (idemp_L (∪)).
    - exists m. split; [assumption|].
      now rewrite (assoc_L (∪)), (idemp_L (∪)). }
  destruct Hm1 as (m1 & Hc1 & Hu).
  rewrite (update_global_run _ _ _ Hk Hc1). cbn [fst snd env].
  split; [reflexivity|]. subst w1. simpl.
  rewrite lookup_total_insert_eq. simpl. fold a. rewrite Hu.
  apply insert_insert_eq.
Qed.

Lemma update_global_idempotent_witness :
  klass config_yaml = ConfigHandler /\
  cdata_val w_clean (class_data config_yaml)
    = VDict {[ "b" := VInt 3; "c" := VInt 4 ]} /\
  let st1 := snd (update_global (mk_mstate config_yaml w_clean)) in
  let r2 := update_global st1 in
  fst r2 = Ok tt /\ heap (env (snd r2)) = heap (env st1).
Proof.
  split; [reflexivity|]. split; [reflexivity|].
  apply (update_global_idempotent config_yaml w_clean
           {[ "b" := VInt 3; "c" := VInt 4 ]}); reflexivity.
Defined.
